(** * Chat backend: identity resolution, access rules, resolvers, Date scalar

    A shallow embedding of the GraphQL chat server.  Asynchronous
    functions are modelled by the value their promise settles to
    ([result]); the few places where the program holds a promise without
    awaiting it keep the promise as a value ([promise]).  Persistent state
    is passed explicitly. *)

From stdpp Require Import base option list gmap strings pretty stringmap.
From Stdlib Require Import ZArith Ascii.
From Stdlib Require QArith.

Set Default Proof Using "Type".

(** ** JavaScript values and control effects *)

Inductive error : Type :=
| TypeError (msg : string)            (* raised by the language itself *)
| JsonWebTokenError (msg : string)    (* raised by [verify] *)
| Error (msg : string)                (* [new Error(msg)] *)
| StoreError (msg : string).          (* a failed data-store call *)

Inductive result (A : Type) : Type :=
| Ok (a : A)
| Throw (e : error).
Arguments Ok {A} a.
Arguments Throw {A} e.

Global Instance result_bind : MBind result := λ A B k r,
  match r with
  | Ok a => k a
  | Throw e => Throw e
  end.

Global Instance result_fmap : FMap result := λ A B f r,
  match r with
  | Ok a => Ok (f a)
  | Throw e => Throw e
  end.

(** The object an [async] function call evaluates to when it is not
    awaited.  [settled] is what an [await] would have produced. *)
Inductive promise (A : Type) : Type :=
| Promise (settled : result A).
Arguments Promise {A} settled.

(** [ToBoolean]: every object, a promise included, is truthy; a string is
    truthy unless it is empty; [undefined] and [null] are falsy. *)
Definition ToBoolean_object {A} (o : A) : bool := true.

(** [o === null] for an object [o]. *)
Definition strict_equal_null_object {A} (o : A) : bool := false.

Definition ToBoolean_string (s : string) : bool :=
  match s with
  | EmptyString => false
  | String _ _ => true
  end.

Definition ToBoolean_nullable {A} (truthy : A → bool) (v : option A) : bool :=
  match v with
  | None => false
  | Some a => truthy a
  end.

(** [s.replace(pat, rep)] with a string pattern: only the first occurrence
    of [pat], wherever it stands, is replaced. *)
Fixpoint drop_chars (n : nat) (s : string) : string :=
  match n, s with
  | S n', String _ s' => drop_chars n' s'
  | _, _ => s
  end.

Fixpoint replace (pat rep s : string) : string :=
  if String.prefix pat s then rep +:+ drop_chars (String.length pat) s
  else match s with
       | EmptyString => EmptyString
       | String c s' => String c (replace pat rep s')
       end.

(** ** Entities *)

Definition ID := string.

Record User : Type := mkUser {
  user_id : ID;
  user_nickname : string
}.

Record Conversation : Type := mkConversation {
  conv_id : ID;
  conv_title : string;
  conv_participants : list User
}.

Record Message : Type := mkMessage {
  msg_id : ID;
  msg_body : string;
  msg_conversation : ID;
  msg_author : ID
}.

Global Instance User_eq_dec : EqDecision User.
Proof. solve_decision. Defined.
Global Instance Conversation_eq_dec : EqDecision Conversation.
Proof. solve_decision. Defined.
Global Instance Message_eq_dec : EqDecision Message.
Proof. solve_decision. Defined.

(** ** The data store

    The generated client [./generated/prisma-client] is used through the
    calls below; each may fail with a [StoreError], and the two writes
    return the new store. *)
Class PrismaClient (DB : Type) : Type := {
  (* prisma.$exists.user({ id }) *)
  prisma_exists_user : DB → ID → result bool;
  (* prisma.user({ id }) *)
  prisma_user : DB → ID → result (option User);
  (* prisma.conversation({ id }) *)
  prisma_conversation : DB → ID → result (option Conversation);
  (* prisma.conversation({ id }).participants() *)
  prisma_conversation_participants : DB → ID → result (option (list User));
  (* prisma.updateConversation({ where: { id }, data: { participants: { connect: { id } } } }) *)
  prisma_updateConversation_connect : DB → ID → ID → result Conversation * DB;
  (* prisma.createMessage({ author: { connect }, conversation: { connect }, body }) *)
  prisma_createMessage : DB → ID → ID → string → result Message * DB
}.

(** ** Identity resolution *)

(** What [getUser] is handed: an object with a [get] method, either the
    HTTP request or the wrapper built around a connection's parameters. *)
Record Request : Type := mkRequest {
  req_get : string → option string
}.

(** The claims a token carries; [signin] signs [{ id, nickname }]. *)
Record Payload : Type := mkPayload {
  payload_id : ID;
  payload_nickname : string
}.

Section Identity.
Context {DB : Type} `{PrismaClient DB}.
(** [verify] of the jsonwebtoken package: the decoded payload, or an
    exception when the token is malformed or its signature is wrong. *)
Variable verify : string → option string → result Payload.
(** [process.env.APP_SECRET] *)
Variable APP_SECRET : option string.

Definition getUser (db : DB) (req : Request) : result (option User) :=
  let authorization := req_get req "Authorization" in
  if negb (ToBoolean_nullable ToBoolean_string authorization) then
    Ok None
  else
    let token := replace "Bearer " "" (default "" authorization) in
    payload ← verify token APP_SECRET;
    let id := payload_id payload in
    prisma_exists_user db id ≫= λ meIsExists : bool,
    if negb meIsExists then
      Ok None
    else
      prisma_user db id.

(** *** The execution context

    [connection] is set for operations that arrive over a subscription
    connection; its [context] holds the parameters sent when the
    connection was opened.  The context's [prisma] and [pubsub] handles
    are the store and bus states passed to the resolvers. *)
Record Connection : Type := mkConnection {
  connection_context : gmap string string
}.

Record Ctx : Type := mkCtx {
  ctx_user : option User
}.

(** The object with a [get] method built around a connection. *)
Definition connection_request (connection : Connection) : Request :=
  mkRequest (λ headerName, connection_context connection !! headerName).

Definition context (db : DB) (request : Request)
    (connection : option Connection) : result Ctx :=
  match connection with
  | Some connection =>
      user ← getUser db (connection_request connection);
      Ok (mkCtx user)
  | None =>
      user ← getUser db request;
      Ok (mkCtx user)
  end.
End Identity.

(** The object [getUser] reads the credential from, for an operation
    that arrived with [request] and, over a subscription connection, with
    [connection]. *)
Definition credential_source (request : Request) (connection : option Connection)
    : Request :=
  match connection with
  | Some connection => connection_request connection
  | None => request
  end.

(** ** Access rules *)

(** Arguments of the gated fields, already coerced by the schema
    ([conversation: ID!], [body: String!]).  Fields that take no argument
    are gated by rules that do not read them. *)
Record Args : Type := mkArgs {
  arg_conversation : ID;
  arg_body : string
}.

(** [user.id]: reading a property of [null] raises. *)
Definition property_id (user : option User) : result ID :=
  match user with
  | Some u => Ok (user_id u)
  | None => Throw (TypeError "Cannot read property 'id' of null")
  end.

(** The rules handed to [shield], as data: the two rules the program
    declares with [rule()] and their composition with [and]. *)
Module Shield.
Inductive rule : Type :=
| isAuthenticated
| haveUserAccessToConv
| and (r1 r2 : rule).

Global Instance rule_eq_dec : EqDecision rule.
Proof. solve_decision. Defined.
End Shield.

Section Rules.
Context {DB : Type} `{PrismaClient DB}.
(** What the rule engine (graphql-shield, whose code is not part of the
    sources) makes of an exception that escapes the function of a rule:
    an answer in the rule's place, or an exception of the operation. *)
Variable rule_error : error → result bool.

Definition existsUserInConv (db : DB) (userId conversationId : ID) : result bool :=
  participants ← prisma_conversation_participants db conversationId;
  match participants with
  | Some participants =>
      Ok (existsb (λ p, bool_decide (userId = user_id p)) participants)
  | None => Throw (TypeError "Cannot read property 'some' of null")
  end.

(** The function wrapped by [isAuthenticated]. *)
Definition isAuthenticated_fn (args : Args) (ctx : Ctx) : result bool :=
  Ok (bool_decide (ctx_user ctx ≠ None)).

(** The function wrapped by [haveUserAccessToConv]. *)
Definition haveUserAccessToConv_fn (db : DB) (args : Args) (ctx : Ctx) : result bool :=
  let conversationId := arg_conversation args in
  let user := ctx_user ctx in
  userId ← property_id user;
  existsUserInConv db userId conversationId.

Definition run_rule (answer : result bool) : result bool :=
  match answer with
  | Ok accepted => Ok accepted
  | Throw e => rule_error e
  end.

(** Modelled from the spec: evaluation of a rule by the rule engine
    (graphql-shield, whose code is not part of the sources).  An atomic
    rule runs its function; [and] stops at the first rule that does not
    accept. *)
Fixpoint rule_resolve (r : Shield.rule) (db : DB) (args : Args) (ctx : Ctx)
    : result bool :=
  match r with
  | Shield.isAuthenticated => run_rule (isAuthenticated_fn args ctx)
  | Shield.haveUserAccessToConv => run_rule (haveUserAccessToConv_fn db args ctx)
  | Shield.and r1 r2 =>
      rule_resolve r1 db args ctx ≫= λ accepted : bool,
        if accepted then rule_resolve r2 db args ctx else Ok false
  end.
End Rules.

Definition permissions : gmap string (gmap string Shield.rule) :=
  {[ "Query" := {[ "me" := Shield.isAuthenticated ]};
     "Mutation" :=
       {[ "sendMessage" := Shield.and Shield.isAuthenticated Shield.haveUserAccessToConv;
          "joinToConversation" := Shield.isAuthenticated ]};
     "Subscription" :=
       {[ "message" := Shield.and Shield.isAuthenticated Shield.haveUserAccessToConv ]};
     "User" :=
       {[ "conversations" := Shield.isAuthenticated;
          "messages" := Shield.isAuthenticated ]} ]}.

(** The rule attached to [typeName.fieldName], if any. *)
Definition field_rule (typeName fieldName : string) : option Shield.rule :=
  permissions !! typeName ≫= λ fields : gmap string Shield.rule, fields !! fieldName.

Definition notAuthorised : error := Error "Not Authorised!".

(** Modelled from the spec: the middleware that [shield] builds
    (graphql-shield, whose code is not part of the sources), installed by
    [middlewares: [permissions]].  The resolver of a gated field runs only
    when the field's rule accepts; otherwise the operation fails and the
    state is left as it was. *)
Definition shield {DB} `{PrismaClient DB} {S A : Type}
    (rule_error : error → result bool) (db : DB)
    (typeName fieldName : string) (args : Args) (ctx : Ctx)
    (resolver : S → result A * S) (s : S) : result A * S :=
  match field_rule typeName fieldName with
  | None => resolver s
  | Some r =>
      match rule_resolve rule_error r db args ctx with
      | Ok true => resolver s
      | Ok false => (Throw notAuthorised, s)
      | Throw e => (Throw e, s)
      end
  end.

(** ** The topic bus *)

(** The payload [{ message }] that [sendMessage] publishes. *)
Record Event : Type := mkEvent {
  event_message : Message
}.

(** Modelled from the spec: the Topic Bus ([PubSub] of graphql-yoga, whose
    code is not part of the sources).  A subscription is registered under
    a topic and owns the stream of events delivered to it so far. *)
Record PubSub : Type := mkPubSub {
  subscriptions : gmap nat (string * list Event);
  subIdCounter : nat
}.

Definition deliver (triggerName : string) (payload : Event)
    (sub : string * list Event) : string * list Event :=
  if decide (sub.1 = triggerName) then (sub.1, sub.2 ++ [payload]) else sub.

(** Modelled from the spec: [pubsub.publish(triggerName, payload)] of the
    Topic Bus appends the event to the stream of every subscription
    registered under the topic at that moment and keeps nothing for later
    subscribers. *)
Definition publish (triggerName : string) (payload : Event) (pubsub : PubSub) : PubSub :=
  mkPubSub (deliver triggerName payload <$> subscriptions pubsub) (subIdCounter pubsub).

(** Modelled from the spec: [pubsub.asyncIterator(triggerName)] of the
    Topic Bus registers a new subscription with an empty stream; the
    iterator is named by its subscription id. *)
Definition asyncIterator (triggerName : string) (pubsub : PubSub) : nat * PubSub :=
  let subId := S (subIdCounter pubsub) in
  (subId, mkPubSub (<[subId := (triggerName, [])]> (subscriptions pubsub)) subId).

(** Modelled from the spec: cancellation of an iterator of the Topic Bus
    when its connection closes. *)
Definition unsubscribe (subId : nat) (pubsub : PubSub) : PubSub :=
  mkPubSub (delete subId (subscriptions pubsub)) (subIdCounter pubsub).

(** The events a subscription has received, oldest first. *)
Definition stream (subId : nat) (pubsub : PubSub) : option (list Event) :=
  snd <$> subscriptions pubsub !! subId.

Definition topic (subId : nat) (pubsub : PubSub) : option string :=
  fst <$> subscriptions pubsub !! subId.

(** ** Resolvers *)

Section Resolvers.
Context {DB : Type} `{PrismaClient DB}.

(** [Query.me] *)
Definition me (args : Args) (ctx : Ctx) : result (option User) :=
  Ok (ctx_user ctx).

(** [Mutation.joinToConversation].  The call to [existsUserInConv] is not
    awaited: [isExistsInConv] is the promise itself. *)
Definition joinToConversation (args : Args) (ctx : Ctx) (db : DB)
    : result (option Conversation) * DB :=
  let conversationId := arg_conversation args in
  let user := ctx_user ctx in
  match property_id user with
  | Throw e => (Throw e, db)
  | Ok userId =>
      let isExistsInConv := Promise (existsUserInConv db userId conversationId) in
      if negb (ToBoolean_object isExistsInConv) then
        let '(updated, db') :=
          prisma_updateConversation_connect db conversationId userId in
        (Some <$> updated, db')
      else
        (prisma_conversation db conversationId, db)
  end.

(** [Mutation.sendMessage] *)
Definition sendMessage (args : Args) (ctx : Ctx) (st : DB * PubSub)
    : result Message * (DB * PubSub) :=
  let conversation := arg_conversation args in
  let body := arg_body args in
  let user := ctx_user ctx in
  let '(db, pubsub) := st in
  match property_id user with
  | Throw e => (Throw e, (db, pubsub))
  | Ok userId =>
      match prisma_createMessage db userId conversation body with
      | (Throw e, db') => (Throw e, (db', pubsub))
      | (Ok message, db') =>
          (Ok message, (db', publish conversation (mkEvent message) pubsub))
      end
  end.

(** [Subscription.message.subscribe] *)
Definition subscribe (args : Args) (ctx : Ctx) (pubsub : PubSub)
    : result nat * PubSub :=
  let conversationId := arg_conversation args in
  let '(iterator, pubsub') := asyncIterator conversationId pubsub in
  (Ok iterator, pubsub').
End Resolvers.

(** ** An in-memory store *)

(** Modelled from the spec: the generated Prisma client is not part of the
    sources; this store follows the data store contract (existence check,
    fetch, participants of a conversation, add participant, create
    message) and serves as the concrete client of the examples. *)
Record MemStore : Type := mkMemStore {
  users : gmap ID User;
  conversations : gmap ID Conversation;
  messages : list Message
}.

(** Modelled from the spec: adding a participant to a conversation of the
    data store; connecting one who is already connected changes nothing. *)
Definition connect_participant (u : User) (c : Conversation) : Conversation :=
  if decide (u ∈ conv_participants c) then c
  else mkConversation (conv_id c) (conv_title c) (conv_participants c ++ [u]).

(** Modelled from the spec: the update of the missing Prisma client; it
    fails when the conversation or the user does not exist. *)
Definition mem_updateConversation_connect (db : MemStore) (conversationId userId : ID)
    : result Conversation * MemStore :=
  match conversations db !! conversationId, users db !! userId with
  | Some c, Some u =>
      let c' := connect_participant u c in
      (Ok c', mkMemStore (users db) (<[conversationId := c']> (conversations db)) (messages db))
  | None, _ => (Throw (StoreError "No Node for the model Conversation"), db)
  | _, None => (Throw (StoreError "No Node for the model User"), db)
  end.

(** Modelled from the spec: message creation of the missing Prisma
    client; the store assigns the id and fails when the author or the
    conversation does not exist. *)
Definition mem_createMessage (db : MemStore) (authorId conversationId : ID) (body : string)
    : result Message * MemStore :=
  match users db !! authorId, conversations db !! conversationId with
  | Some _, Some _ =>
      let message :=
        mkMessage ("m" +:+ pretty (length (messages db))) body conversationId authorId in
      (Ok message, mkMemStore (users db) (conversations db) (messages db ++ [message]))
  | None, _ => (Throw (StoreError "No Node for the model User"), db)
  | _, None => (Throw (StoreError "No Node for the model Conversation"), db)
  end.

(** Modelled from the spec: the reads of the missing Prisma client, with
    the two writes above. *)
Global Instance MemStore_client : PrismaClient MemStore := {
  prisma_exists_user db id := Ok (bool_decide (is_Some (users db !! id)));
  prisma_user db id := Ok (users db !! id);
  prisma_conversation db id := Ok (conversations db !! id);
  prisma_conversation_participants db id :=
    Ok (conv_participants <$> conversations db !! id);
  prisma_updateConversation_connect := mem_updateConversation_connect;
  prisma_createMessage := mem_createMessage
}.

(** ** The Date scalar *)

(** Numbers as the scalar exchanges them: a double holding an integer, or
    [NaN].  Time values lie within 8.64e15, far below 2^53, so integers
    are exact there. *)
Inductive number : Type :=
| Num (z : Z)
| NaN.

Inductive Value : Type :=
| VUndefined
| VNull
| VBoolean (b : bool)
| VNumber (n : number)
| VString (s : string)
| VDate (tv : number).      (* a Date object and its time value *)

(** Literal nodes of a GraphQL document; [IntValue] keeps the digits as
    they were written. *)
#[warnings="-register-all"]
Inductive ValueNode : Type :=
| Variable_ (name : string)
| IntValue (value : string)
| FloatValue (value : string)
| StringValue (value : string)
| BooleanValue (value : bool)
| NullValue
| EnumValue (value : string)
| ListValue (values : list ValueNode)
| ObjectValue (fields : list (string * ValueNode)).

Module Kind.
Definition INT : string := "IntValue".
End Kind.

Definition kind (ast : ValueNode) : string :=
  match ast with
  | Variable_ _ => "Variable"
  | IntValue _ => "IntValue"
  | FloatValue _ => "FloatValue"
  | StringValue _ => "StringValue"
  | BooleanValue _ => "BooleanValue"
  | NullValue => "NullValue"
  | EnumValue _ => "EnumValue"
  | ListValue _ => "ListValue"
  | ObjectValue _ => "ObjectValue"
  end.

(** [ast.value] *)
Definition ast_value (ast : ValueNode) : Value :=
  match ast with
  | IntValue s | FloatValue s | StringValue s | EnumValue s => VString s
  | BooleanValue b => VBoolean b
  | Variable_ _ | NullValue | ListValue _ | ObjectValue _ => VUndefined
  end.

Definition typeof (v : Value) : string :=
  match v with
  | VUndefined => "undefined"
  | VBoolean _ => "boolean"
  | VNumber _ => "number"
  | VString _ => "string"
  | VNull | VDate _ => "object"
  end.

(** [value.getTime()] *)
Definition getTime (v : Value) : result Value :=
  match v with
  | VDate tv => Ok (VNumber tv)
  | VUndefined => Throw (TypeError "Cannot read property 'getTime' of undefined")
  | VNull => Throw (TypeError "Cannot read property 'getTime' of null")
  | VBoolean _ | VNumber _ | VString _ =>
      Throw (TypeError "value.getTime is not a function")
  end.

Definition maxTime : Z := 8640000000000000.
Definition msPerDay : Z := 86400000.

Definition TimeClip (time : number) : number :=
  match time with
  | NaN => NaN
  | Num t => if (maxTime <? Z.abs t)%Z then NaN else Num t
  end.

(** Days from the epoch to January 1st of year [y], and the time value of
    that midnight in UTC. *)
Definition DayFromYear (y : Z) : Z :=
  (365 * (y - 1970) + (y - 1969) `div` 4 - (y - 1901) `div` 100 + (y - 1601) `div` 400)%Z.

Definition TimeFromYear (y : Z) : Z := (msPerDay * DayFromYear y)%Z.

Definition digit (c : ascii) : option Z :=
  let n := Z.of_nat (nat_of_ascii c) in
  if ((48 <=? n) && (n <=? 57))%Z then Some (n - 48)%Z else None.

(** The year written by a string of exactly four digits. *)
Definition four_digit_year (s : string) : option Z :=
  match s with
  | String a (String b (String c (String d EmptyString))) =>
      match digit a, digit b, digit c, digit d with
      | Some a, Some b, Some c, Some d => Some (1000 * a + 100 * b + 10 * c + d)%Z
      | _, _, _, _ => None
      end
  | _ => None
  end.

(** The integer an [IntValue] denotes: an optional minus sign and decimal
    digits. *)
Fixpoint decimal (acc : Z) (s : string) : option Z :=
  match s with
  | EmptyString => Some acc
  | String c s' =>
      match digit c with
      | Some d => decimal (10 * acc + d)%Z s'
      | None => None
      end
  end.

Definition int_of_literal (s : string) : option Z :=
  match s with
  | EmptyString => None
  | String "-"%char EmptyString => None
  | String "-"%char s' => Z.opp <$> decimal 0 s'
  | _ => decimal 0 s
  end.

Section DateScalar.
(** [Date.parse] on the strings that are not four digits: the longer forms
    of the date-time string format and whatever else the engine accepts. *)
Variable parse_other : string → number.

(** [Date.parse]: a string of four digits is the date-only form [YYYY],
    midnight UTC on January 1st of that year. *)
Definition Date_parse (s : string) : number :=
  match four_digit_year s with
  | Some y => Num (TimeFromYear y)
  | None => parse_other s
  end.

(** [new Date(v)] with one argument. *)
Definition new_Date (v : Value) : Value :=
  match v with
  | VDate tv => VDate (TimeClip tv)
  | VString s => VDate (TimeClip (Date_parse s))
  | VNumber n => VDate (TimeClip n)
  | VUndefined => VDate (TimeClip NaN)
  | VNull => VDate (TimeClip (Num 0))
  | VBoolean b => VDate (TimeClip (Num (if b then 1 else 0)))
  end.

Definition parseValue (value : Value) : Value :=
  new_Date value.

Definition serialize (value : Value) : result Value :=
  if decide (typeof value = "string") then
    Ok value
  else
    getTime value.

Definition parseLiteral (ast : ValueNode) : Value :=
  if decide (kind ast = Kind.INT) then
    new_Date (ast_value ast)
  else
    VNull.
End DateScalar.

(** A well-formed time value: what [TimeClip] lets through. *)
Definition time_value (tv : number) : Prop :=
  match tv with
  | NaN => True
  | Num t => (Z.abs t ≤ maxTime)%Z
  end.

(** ** The gate table as the specification writes it

    The rows of the field-level table, in the specification's words, and
    their reading as rules of the program. *)
Inductive SpecRule : Type :=
| Authenticated
| ConversationMember
| AND (r1 r2 : SpecRule).

Definition gate_table : list (string * string * SpecRule) :=
  [ ("Query", "me", Authenticated);
    ("Mutation", "sendMessage", AND Authenticated ConversationMember);
    ("Mutation", "joinToConversation", Authenticated);
    ("Subscription", "message", AND Authenticated ConversationMember);
    ("User", "conversations", Authenticated);
    ("User", "messages", Authenticated) ].

Fixpoint gate_lookup (table : list (string * string * SpecRule))
    (typeName fieldName : string) : option SpecRule :=
  match table with
  | [] => None
  | (t, f, r) :: table' =>
      if decide (t = typeName ∧ f = fieldName) then Some r
      else gate_lookup table' typeName fieldName
  end.

Fixpoint rule_of_spec (r : SpecRule) : Shield.rule :=
  match r with
  | Authenticated => Shield.isAuthenticated
  | ConversationMember => Shield.haveUserAccessToConv
  | AND r1 r2 => Shield.and (rule_of_spec r1) (rule_of_spec r2)
  end.

(** ** The earlier revision ([src/index.ts])

    The same server before subscriptions and the membership rule were
    added.  Its context stores the promise returned by [getUser] without
    awaiting it. *)
Module Legacy.
Section Revision.
Context {DB : Type} `{PrismaClient DB}.
Variable verify : string → option string → result Payload.
Variable APP_SECRET : option string.

Definition getUser (db : DB) (req : Request) : result (option User) :=
  let authorization := req_get req "Authorization" in
  if negb (ToBoolean_nullable ToBoolean_string authorization) then
    Throw (Error "Not authenticated")
  else
    let token := replace "Bearer " "" (default "" authorization) in
    payload ← verify token APP_SECRET;
    let id := payload_id payload in
    prisma_exists_user db id ≫= λ meIsExists : bool,
    if negb meIsExists then
      Throw (Error "User not exists")
    else
      prisma_user db id.

Record Ctx : Type := mkCtx {
  ctx_user : promise (option User)
}.

Definition context (db : DB) (request : Request) : Ctx :=
  mkCtx (Promise (getUser db request)).

(** [ctx.user !== null]: a promise is an object, never [null]. *)
Definition isAuthenticated_fn (args : Args) (ctx : Ctx) : result bool :=
  Ok (negb (strict_equal_null_object (ctx_user ctx))).
End Revision.

Definition permissions : gmap string (gmap string Shield.rule) :=
  {[ "Query" := {[ "me" := Shield.isAuthenticated ]};
     "Mutation" :=
       {[ "sendMessage" := Shield.isAuthenticated;
          "joinToConversation" := Shield.isAuthenticated ]};
     "User" :=
       {[ "conversations" := Shield.isAuthenticated;
          "messages" := Shield.isAuthenticated ]} ]}.

Definition serialize (value : Value) : result Value :=
  getTime value.
End Legacy.

(** ** Sample data *)

Definition alice : User := mkUser "u1" "alice".
Definition bob : User := mkUser "u2" "bob".

(** A store with two users and two conversations; only [bob] has joined
    one of them. *)
Definition sample_store : MemStore :=
  mkMemStore
    {[ "u1" := alice; "u2" := bob ]}
    {[ "c1" := mkConversation "c1" "general" [];
       "c2" := mkConversation "c2" "random" [bob] ]}
    [].

(** A verifier that knows two tokens: one of [alice], one of a user who
    has since been deleted. *)
Definition sample_verify (token : string) (secret : option string) : result Payload :=
  if decide (token = "token-u1") then Ok (mkPayload "u1" "alice")
  else if decide (token = "token-u9") then Ok (mkPayload "u9" "carol")
  else Throw (JsonWebTokenError "jwt malformed").

Definition request_with (headers : gmap string string) : Request :=
  mkRequest (λ name, headers !! name).

(** ** Accounts and nested fields *)

(** The calls of the generated client made by [signin] and by the
    resolvers of [User]; a failed call raises a [StoreError], and
    [createUser] returns the new store. *)
Class PrismaAccounts (DB : Type) : Type := {
  (* prisma.$exists.user({ nickname }) *)
  prisma_exists_user_nickname : DB → string → result bool;
  (* prisma.user({ nickname }) *)
  prisma_user_nickname : DB → string → result (option User);
  (* prisma.createUser({ nickname }) *)
  prisma_createUser : DB → string → result User * DB;
  (* prisma.conversations({ where: { participants_some: { id } } }) *)
  prisma_conversations_participants_some : DB → ID → result (list Conversation);
  (* prisma.messages({ where: { author: { id } } }) *)
  prisma_messages_author : DB → ID → result (list Message)
}.

(** What [signin] returns: [{ user, token }]. *)
Record SignInResponse : Type := mkSignInResponse {
  response_user : option User;
  response_token : string
}.

Section Accounts.
Context {DB : Type} `{PrismaAccounts DB}.
(** [sign] of the jsonwebtoken package: the token for a payload, or an
    exception (for instance when no secret is given).  It stamps the
    token with the time of signing, so it is given the clock. *)
Variable sign : Z → Payload → option string → result string.
(** [process.env.APP_SECRET] *)
Variable APP_SECRET : option string.

(** [Mutation.signin], called at time [now]. *)
Definition signin (now : Z) (nickname : string) (db : DB) : result SignInResponse * DB :=
  match prisma_exists_user_nickname db nickname with
  | Throw e => (Throw e, db)
  | Ok isExistsUser =>
      let '(fetched, db') :=
        if isExistsUser : bool then
          (prisma_user_nickname db nickname, db)
        else
          let '(created, db') := prisma_createUser db nickname in
          (Some <$> created, db') in
      match fetched with
      | Throw e => (Throw e, db')
      | Ok user =>
          match property_id user with
          | Throw e => (Throw e, db')
          | Ok id =>
              match sign now (mkPayload id nickname) APP_SECRET with
              | Throw e => (Throw e, db')
              | Ok token => (Ok (mkSignInResponse user token), db')
              end
          end
      end
  end.

(** [User.conversations] *)
Definition User_conversations (parent : User) (db : DB) : result (list Conversation) :=
  prisma_conversations_participants_some db (user_id parent).

(** [User.messages] *)
Definition User_messages (parent : User) (db : DB) : result (list Message) :=
  prisma_messages_author db (user_id parent).
End Accounts.

(** Modelled from the spec: the account and listing calls of the missing
    Prisma client on the in-memory store.  Nicknames are unique; a new
    user receives an id no user has. *)
Definition mem_createUser (db : MemStore) (nickname : string) : result User * MemStore :=
  if existsb (λ entry, bool_decide (user_nickname entry.2 = nickname))
       (map_to_list (users db))
  then (Throw (StoreError "A unique constraint would be violated on User"), db)
  else
    let id := fresh_string "u" (users db) in
    let user := mkUser id nickname in
    (Ok user, mkMemStore (<[id := user]> (users db)) (conversations db) (messages db)).

(** Modelled from the spec: see [mem_createUser]. *)
Global Instance MemStore_accounts : PrismaAccounts MemStore := {
  prisma_exists_user_nickname db nickname :=
    Ok (existsb (λ entry, bool_decide (user_nickname entry.2 = nickname))
          (map_to_list (users db)));
  prisma_user_nickname db nickname :=
    Ok (snd <$> head (filter (λ entry, user_nickname entry.2 = nickname)
                        (map_to_list (users db))));
  prisma_createUser := mem_createUser;
  prisma_conversations_participants_some db id :=
    Ok (filter (λ c, id ∈ user_id <$> conv_participants c)
          (snd <$> map_to_list (conversations db)));
  prisma_messages_author db id :=
    Ok (filter (λ m, msg_author m = id) (messages db))
}.

(** A signer matching [sample_verify] on the token of [alice]. *)
Definition sample_sign (now : Z) (payload : Payload) (secret : option string)
    : result string :=
  match secret with
  | Some _ => Ok ("token-" +:+ payload_id payload)
  | None => Throw (Error "secretOrPrivateKey must have a value")
  end.

Global Instance Payload_eq_dec : EqDecision Payload.
Proof. solve_decision. Defined.

(** A signer that serves [alice] only, so that [sample_verify] decodes
    every token it issues. *)
Definition alice_sign (now : Z) (payload : Payload) (secret : option string)
    : result string :=
  if decide (payload = mkPayload "u1" "alice") then sample_sign now payload secret
  else Throw (Error "payload refused").

(** ** The rule engine's treatment of exceptions *)

(** Modelled from the spec: what the rule engine (graphql-shield, whose
    code is not part of the sources) makes of an exception that escapes
    the function of a rule when [shield] is called without options, as it
    is here: the rule answers [false], so that the operation is rejected
    by the engine and does not crash. *)
Definition shield_rule_error (e : error) : result bool := Ok false.

(** ** Connection parameters as the client sent them *)

(** The parameters of a subscription connection are JSON values of any
    kind; [connection.context[headerName]] hands them to [getUser] as
    they are. *)
#[warnings="-register-all"]
Inductive Json : Type :=
| JNull
| JBoolean (b : bool)
| JNumber (q : QArith_base.Q)
| JString (s : string)
| JArray (items : list Json)
| JObject (members : list (string * Json)).

Definition ToBoolean_json (v : Json) : bool :=
  match v with
  | JNull => false
  | JBoolean b => b
  | JNumber q => negb (QArith_base.Qnum q =? 0)%Z
  | JString s => ToBoolean_string s
  | JArray _ | JObject _ => true
  end.

Record RawConnection : Type := mkRawConnection {
  raw_connection_context : gmap string Json
}.

(** [getUser] on the object built around a connection, the parameters
    taken as sent.  A string goes the way of [getUser]; any other truthy
    value has no [replace] method (JSON holds no function), and the call
    [authorization.replace(...)] raises. *)
Definition getUser_connection {DB : Type} `{PrismaClient DB}
    (verify : string → option string → result Payload) (APP_SECRET : option string)
    (db : DB) (connection : RawConnection) : result (option User) :=
  let authorization := raw_connection_context connection !! "Authorization" in
  if negb (ToBoolean_nullable ToBoolean_json authorization) then
    Ok None
  else
    match authorization with
    | Some (JString authorization) =>
        getUser verify APP_SECRET db (request_with {[ "Authorization" := authorization ]})
    | _ => Throw (TypeError "authorization.replace is not a function")
    end.

(** * Properties *)

(** ** Identity resolution *)

Section IdentityFacts.
Context {DB : Type} `{PrismaClient DB}.
Variable verify : string → option string → result Payload.
Variable APP_SECRET : option string.

(** Once the header is present and not empty, [getUser] is the verifier
    followed by the two store calls. *)
Lemma getUser_with_authorization (db : DB) (req : Request) (authorization : string) :
  req_get req "Authorization" = Some authorization →
  authorization ≠ "" →
  getUser verify APP_SECRET db req =
    (verify (replace "Bearer " "" authorization) APP_SECRET ≫= λ payload,
     prisma_exists_user db (payload_id payload) ≫= λ meIsExists : bool,
     if negb meIsExists then Ok None else prisma_user db (payload_id payload)).
Proof.
  intros Hget Hne. unfold getUser. rewrite Hget. simpl.
  destruct authorization as [|c rest]; [congruence | reflexivity].
Qed.

Lemma getUser_without_authorization (db : DB) (req : Request) :
  req_get req "Authorization" = None →
  getUser verify APP_SECRET db req = Ok None.
Proof. intros Hget. unfold getUser. by rewrite Hget. Qed.

(** An empty value is falsy too. *)
Lemma getUser_empty_authorization (db : DB) (req : Request) :
  req_get req "Authorization" = Some "" →
  getUser verify APP_SECRET db req = Ok None.
Proof. intros Hget. unfold getUser. by rewrite Hget. Qed.
End IdentityFacts.

(** The context is the resolved identity, whatever the transport. *)
Lemma context_getUser {DB : Type} `{PrismaClient DB}
    (verify : string → option string → result Payload) (APP_SECRET : option string)
    (db : DB) (request : Request) (connection : option Connection) :
  context verify APP_SECRET db request connection =
    mkCtx <$> getUser verify APP_SECRET db (credential_source request connection).
Proof.
  destruct connection; simpl;
    by destruct (getUser verify APP_SECRET db _).
Qed.

(** C2.  A token that the verifier refuses makes [getUser] raise the
    verifier's exception, and with it the construction of the execution
    context, on either transport; no branch of [getUser] turns the
    failure into [null]. *)
Theorem getUser_raises_on_invalid_credential
    {DB : Type} `{PrismaClient DB}
    (verify : string → option string → result Payload) (APP_SECRET : option string)
    (db : DB) (request : Request) (connection : option Connection)
    (authorization : string) (e : error) :
  req_get (credential_source request connection) "Authorization" = Some authorization →
  authorization ≠ "" →
  verify (replace "Bearer " "" authorization) APP_SECRET = Throw e →
  getUser verify APP_SECRET db (credential_source request connection) = Throw e ∧
  context verify APP_SECRET db request connection = Throw e.
Proof.
  intros Hget Hne Hverify.
  assert (getUser verify APP_SECRET db (credential_source request connection) = Throw e)
    as Hraise.
  { rewrite (getUser_with_authorization _ _ _ _ _ Hget Hne), Hverify. reflexivity. }
  split; [exact Hraise |].
  rewrite context_getUser, Hraise. reflexivity.
Qed.

(** The failing request: a bearer token that is not a token. *)
Lemma getUser_raises_on_invalid_credential_witness :
  getUser sample_verify (Some "secret") sample_store
    (request_with {[ "Authorization" := "Bearer garbage" ]})
    = Throw (JsonWebTokenError "jwt malformed") ∧
  context sample_verify (Some "secret") sample_store
    (request_with {[ "Authorization" := "Bearer garbage" ]}) None
    = Throw (JsonWebTokenError "jwt malformed").
Proof.
  apply (getUser_raises_on_invalid_credential sample_verify (Some "secret")
           sample_store (request_with {[ "Authorization" := "Bearer garbage" ]})
           None "Bearer garbage").
  - reflexivity.
  - discriminate.
  - reflexivity.
Defined.

(** C9.  A credential that verifies, for an id the store no longer knows,
    resolves to [null]: [getUser] returns normally with no identity, and
    the execution context carries a null user. *)
Theorem getUser_null_for_deleted_user
    {DB : Type} `{PrismaClient DB}
    (verify : string → option string → result Payload) (APP_SECRET : option string)
    (db : DB) (request : Request) (connection : option Connection)
    (authorization : string) (payload : Payload) :
  req_get (credential_source request connection) "Authorization" = Some authorization →
  authorization ≠ "" →
  verify (replace "Bearer " "" authorization) APP_SECRET = Ok payload →
  prisma_exists_user db (payload_id payload) = Ok false →
  getUser verify APP_SECRET db (credential_source request connection) = Ok None ∧
  context verify APP_SECRET db request connection = Ok (mkCtx None).
Proof.
  intros Hget Hne Hverify Hexists.
  assert (getUser verify APP_SECRET db (credential_source request connection) = Ok None)
    as Hnull.
  { rewrite (getUser_with_authorization _ _ _ _ _ Hget Hne), Hverify.
    simpl. rewrite Hexists. reflexivity. }
  split; [exact Hnull |].
  rewrite context_getUser, Hnull. reflexivity.
Qed.

(** The token of a deleted user, sent over a subscription connection. *)
Lemma getUser_null_for_deleted_user_witness :
  getUser sample_verify (Some "secret") sample_store
    (connection_request (mkConnection {[ "Authorization" := "Bearer token-u9" ]}))
    = Ok None ∧
  context sample_verify (Some "secret") sample_store (request_with ∅)
    (Some (mkConnection {[ "Authorization" := "Bearer token-u9" ]}))
    = Ok (mkCtx None).
Proof.
  apply (getUser_null_for_deleted_user sample_verify (Some "secret") sample_store
           (request_with ∅)
           (Some (mkConnection {[ "Authorization" := "Bearer token-u9" ]}))
           "Bearer token-u9" (mkPayload "u9" "carol")).
  - reflexivity.
  - discriminate.
  - reflexivity.
  - reflexivity.
Defined.

(** ** Access rules *)

(** Case analysis on the key of a lookup in a literal map. *)
Ltac lookup_cases :=
  repeat (first [rewrite lookup_insert | rewrite lookup_singleton];
          case_decide; subst; simpl);
  repeat case_decide; try congruence; try done.

(** The rules of the table, read off the nested object. *)
Lemma field_rule_cases (typeName fieldName : string) :
  field_rule typeName fieldName =
    if decide (typeName = "Query") then
      if decide (fieldName = "me") then Some Shield.isAuthenticated else None
    else if decide (typeName = "Mutation") then
      if decide (fieldName = "sendMessage") then
        Some (Shield.and Shield.isAuthenticated Shield.haveUserAccessToConv)
      else if decide (fieldName = "joinToConversation") then Some Shield.isAuthenticated
      else None
    else if decide (typeName = "Subscription") then
      if decide (fieldName = "message") then
        Some (Shield.and Shield.isAuthenticated Shield.haveUserAccessToConv)
      else None
    else if decide (typeName = "User") then
      if decide (fieldName = "conversations") then Some Shield.isAuthenticated
      else if decide (fieldName = "messages") then Some Shield.isAuthenticated
      else None
    else None.
Proof.
  unfold field_rule, permissions. lookup_cases.
Qed.

Lemma gate_lookup_cases (typeName fieldName : string) :
  gate_lookup gate_table typeName fieldName =
    if decide (typeName = "Query") then
      if decide (fieldName = "me") then Some Authenticated else None
    else if decide (typeName = "Mutation") then
      if decide (fieldName = "sendMessage") then
        Some (AND Authenticated ConversationMember)
      else if decide (fieldName = "joinToConversation") then Some Authenticated
      else None
    else if decide (typeName = "Subscription") then
      if decide (fieldName = "message") then Some (AND Authenticated ConversationMember)
      else None
    else if decide (typeName = "User") then
      if decide (fieldName = "conversations") then Some Authenticated
      else if decide (fieldName = "messages") then Some Authenticated
      else None
    else None.
Proof.
  unfold gate_table, gate_lookup.
  repeat case_decide; destruct_and?; simplify_eq; try reflexivity; naive_solver.
Qed.

(** C3.  The table handed to [shield] is the specification's table: a
    field carries a rule exactly when the table has a row for it, and the
    rule is the row's.  The six rows are spelled out. *)
Theorem permissions_match_gate_table :
  (∀ typeName fieldName : string,
     field_rule typeName fieldName =
       rule_of_spec <$> gate_lookup gate_table typeName fieldName) ∧
  field_rule "Query" "me" = Some Shield.isAuthenticated ∧
  field_rule "Mutation" "joinToConversation" = Some Shield.isAuthenticated ∧
  field_rule "User" "conversations" = Some Shield.isAuthenticated ∧
  field_rule "User" "messages" = Some Shield.isAuthenticated ∧
  field_rule "Mutation" "sendMessage" =
    Some (Shield.and Shield.isAuthenticated Shield.haveUserAccessToConv) ∧
  field_rule "Subscription" "message" =
    Some (Shield.and Shield.isAuthenticated Shield.haveUserAccessToConv).
Proof.
  split; [| by repeat split].
  intros typeName fieldName.
  rewrite field_rule_cases, gate_lookup_cases.
  repeat case_decide; reflexivity.
Qed.

(** With no identity, the rule of every field of the table answers
    [false]; the membership rule, standing behind [isAuthenticated], is
    not consulted. *)
Lemma table_rules_reject_null_identity {DB : Type} `{PrismaClient DB}
    (rule_error : error → result bool)
    (db : DB) (args : Args) (typeName fieldName : string) (r : Shield.rule) :
  field_rule typeName fieldName = Some r →
  rule_resolve rule_error r db args (mkCtx None) = Ok false.
Proof.
  rewrite field_rule_cases. intros Hrule.
  repeat case_decide; simplify_eq; reflexivity.
Qed.

(** C5.  A request that carries no [Authorization] value, on either
    transport, resolves to a null identity, and with that context every
    field of the gate table (each is gated by [isAuthenticated]) fails
    with the authorization error while the resolver is not run: whatever
    the resolver is, the state comes back untouched.  No rule function
    raises on the way, so this holds however the engine treats exceptions
    of rules. *)
Theorem missing_authorization_is_rejected
    {DB : Type} `{PrismaClient DB}
    (verify : string → option string → result Payload) (APP_SECRET : option string)
    (db : DB) (request : Request) (connection : option Connection) :
  req_get (credential_source request connection) "Authorization" = None →
  getUser verify APP_SECRET db (credential_source request connection) = Ok None ∧
  context verify APP_SECRET db request connection = Ok (mkCtx None) ∧
  ∀ (rule_error : error → result bool) (typeName fieldName : string) (args : Args)
    (S A : Type) (resolver : S → result A * S) (s : S),
    is_Some (field_rule typeName fieldName) →
    shield rule_error db typeName fieldName args (mkCtx None) resolver s
      = (Throw notAuthorised, s).
Proof.
  intros Hget.
  pose proof (getUser_without_authorization verify APP_SECRET db _ Hget) as Hnull.
  split; [exact Hnull |].
  split; [rewrite context_getUser, Hnull; reflexivity |].
  intros rule_error typeName fieldName args S A resolver s [r Hrule].
  unfold shield. rewrite Hrule.
  rewrite (table_rules_reject_null_identity rule_error db args _ _ _ Hrule).
  reflexivity.
Qed.

(** A request without headers. *)
Lemma missing_authorization_is_rejected_witness :
  getUser sample_verify (Some "secret") sample_store (request_with ∅) = Ok None ∧
  context sample_verify (Some "secret") sample_store (request_with ∅) None
    = Ok (mkCtx None) ∧
  ∀ (rule_error : error → result bool) (typeName fieldName : string) (args : Args)
    (S A : Type) (resolver : S → result A * S) (s : S),
    is_Some (field_rule typeName fieldName) →
    shield rule_error sample_store typeName fieldName args (mkCtx None) resolver s
      = (Throw notAuthorised, s).
Proof.
  apply (missing_authorization_is_rejected sample_verify (Some "secret")
           sample_store (request_with ∅) None).
  reflexivity.
Defined.

(** C4.  With a null identity every identity-gated rule rejects.
    [isAuthenticated] answers [false].  The function of
    [haveUserAccessToConv] raises a [TypeError] when it reads [user.id],
    and the rule engine turns that exception into the answer [false]: the
    rule rejects, it does not crash.  The rule is attached only behind
    [isAuthenticated], and there the composed rule, and with it the rule
    of every field of the table, rejects however the engine treats
    exceptions. *)
Theorem null_identity_rules_reject
    {DB : Type} `{PrismaClient DB} (db : DB) (args : Args) :
  (∀ rule_error : error → result bool,
     rule_resolve rule_error Shield.isAuthenticated db args (mkCtx None) = Ok false) ∧
  haveUserAccessToConv_fn db args (mkCtx None)
    = Throw (TypeError "Cannot read property 'id' of null") ∧
  rule_resolve shield_rule_error Shield.haveUserAccessToConv db args (mkCtx None)
    = Ok false ∧
  (∀ rule_error : error → result bool,
     rule_resolve rule_error
       (Shield.and Shield.isAuthenticated Shield.haveUserAccessToConv)
       db args (mkCtx None) = Ok false) ∧
  (∀ (rule_error : error → result bool) (typeName fieldName : string) (r : Shield.rule),
     field_rule typeName fieldName = Some r →
     rule_resolve rule_error r db args (mkCtx None) = Ok false) ∧
  (∀ (typeName fieldName : string) (r : Shield.rule),
     field_rule typeName fieldName = Some r →
     r = Shield.isAuthenticated ∨
     r = Shield.and Shield.isAuthenticated Shield.haveUserAccessToConv).
Proof.
  split; [done |]. split; [done |]. split; [done |]. split; [done |]. split.
  - intros rule_error typeName fieldName r.
    apply table_rules_reject_null_identity.
  - intros typeName fieldName r. rewrite field_rule_cases. intros Hrule.
    repeat case_decide; simplify_eq; auto.
Qed.

(** The rule of [Mutation.sendMessage], under an engine that would pass
    exceptions on. *)
Lemma null_identity_rules_reject_witness :
  rule_resolve (λ e, Throw e)
    (Shield.and Shield.isAuthenticated Shield.haveUserAccessToConv)
    sample_store (mkArgs "c2" "hi") (mkCtx None) = Ok false.
Proof.
  apply (proj1 (proj2 (proj2 (proj2 (proj2
           (null_identity_rules_reject sample_store (mkArgs "c2" "hi"))))))
           (λ e, Throw e) "Mutation" "sendMessage").
  vm_compute. reflexivity.
Defined.

(** ** Resolvers *)

Section ResolverFacts.
Context {DB : Type} `{PrismaClient DB}.

(** The promise held in [isExistsInConv] is truthy, so the branch that
    writes is never taken. *)
Lemma joinToConversation_store (args : Args) (ctx : Ctx) (db : DB) :
  (joinToConversation args ctx db).2 = db.
Proof.
  unfold joinToConversation.
  destruct (property_id (ctx_user ctx)); reflexivity.
Qed.

Lemma joinToConversation_returns (args : Args) (user : User) (db : DB) :
  (joinToConversation args (mkCtx (Some user)) db).1
    = prisma_conversation db (arg_conversation args).
Proof. reflexivity. Qed.
End ResolverFacts.

(** C1.  [joinToConversation] hands back the store it was given: a user
    who is not among the participants of the conversation is still not
    among them after the call, which returns the conversation as it
    stood. *)
Theorem joinToConversation_does_not_add
    {DB : Type} `{PrismaClient DB}
    (db : DB) (user : User) (args : Args) (participants : list User) :
  prisma_conversation_participants db (arg_conversation args) = Ok (Some participants) →
  user ∉ participants →
  let outcome := joinToConversation args (mkCtx (Some user)) db in
  outcome.2 = db ∧
  prisma_conversation_participants outcome.2 (arg_conversation args)
    = Ok (Some participants) ∧
  outcome.1 = prisma_conversation db (arg_conversation args).
Proof.
  intros Hparticipants Hnot outcome. subst outcome.
  rewrite joinToConversation_store, joinToConversation_returns.
  repeat split; assumption.
Qed.

(** [alice] joins the empty conversation [c1] and is not in it. *)
Lemma joinToConversation_does_not_add_witness :
  let outcome := joinToConversation (mkArgs "c1" "") (mkCtx (Some alice)) sample_store in
  outcome.2 = sample_store ∧
  prisma_conversation_participants outcome.2 "c1" = Ok (Some []) ∧
  outcome.1 = Ok (Some (mkConversation "c1" "general" [])).
Proof.
  intros outcome.
  assert (prisma_conversation_participants sample_store
            (arg_conversation (mkArgs "c1" "")) = Ok (Some []))
    as Hbefore by (vm_compute; reflexivity).
  destruct (joinToConversation_does_not_add sample_store alice (mkArgs "c1" "") []
              Hbefore (not_elem_of_nil alice))
    as (Hstore & Hparticipants & Hreturned).
  split; [exact Hstore |]. split; [exact Hparticipants |].
  subst outcome. rewrite Hreturned. vm_compute. reflexivity.
Defined.

(** C7.  A second call of [joinToConversation] for the same user and
    conversation returns what the first returned and leaves the store,
    and so the participants of every conversation, as the first call left
    them. *)
Theorem joinToConversation_idempotent
    {DB : Type} `{PrismaClient DB} (args : Args) (ctx : Ctx) (db : DB) :
  let once := joinToConversation args ctx db in
  let twice := joinToConversation args ctx once.2 in
  twice.2 = once.2 ∧
  twice.1 = once.1 ∧
  ∀ conversationId : ID,
    prisma_conversation_participants twice.2 conversationId
      = prisma_conversation_participants once.2 conversationId.
Proof.
  simpl. rewrite !joinToConversation_store.
  repeat split.
Qed.

(** *** Delivery on the bus *)

Lemma publish_lookup (triggerName : string) (payload : Event) (pubsub : PubSub)
    (subId : nat) :
  subscriptions (publish triggerName payload pubsub) !! subId
    = deliver triggerName payload <$> subscriptions pubsub !! subId.
Proof. unfold publish. simpl. apply lookup_fmap. Qed.

Lemma publish_stream_same_topic (triggerName : string) (payload : Event)
    (pubsub : PubSub) (subId : nat) :
  topic subId pubsub = Some triggerName →
  stream subId (publish triggerName payload pubsub)
    = (λ events, events ++ [payload]) <$> stream subId pubsub.
Proof.
  unfold topic, stream. rewrite publish_lookup.
  destruct (subscriptions pubsub !! subId) as [[t events]|]; simpl; [| done].
  intros [= ->]. unfold deliver. simpl. by rewrite decide_True.
Qed.

Lemma publish_stream_other_topic (triggerName other : string) (payload : Event)
    (pubsub : PubSub) (subId : nat) :
  topic subId pubsub = Some other →
  other ≠ triggerName →
  stream subId (publish triggerName payload pubsub) = stream subId pubsub.
Proof.
  unfold topic, stream. rewrite publish_lookup.
  destruct (subscriptions pubsub !! subId) as [[t events]|]; simpl; [| done].
  intros [= ->] Hne. unfold deliver. simpl. by rewrite decide_False.
Qed.

Lemma publish_topic (triggerName : string) (payload : Event)
    (pubsub : PubSub) (subId : nat) :
  topic subId (publish triggerName payload pubsub) = topic subId pubsub.
Proof.
  unfold topic. rewrite publish_lookup.
  destruct (subscriptions pubsub !! subId) as [[t events]|]; simpl; [| done].
  unfold deliver. by case_decide.
Qed.

(** A subscription cancelled before the publish receives nothing. *)
Lemma publish_after_unsubscribe (triggerName : string) (payload : Event)
    (pubsub : PubSub) (subId : nat) :
  stream subId (publish triggerName payload (unsubscribe subId pubsub)) = None.
Proof.
  unfold stream. rewrite publish_lookup. simpl. by rewrite lookup_delete_eq.
Qed.

(** A subscription opened by the [message] field listens on the
    conversation id and has received nothing yet. *)
Lemma subscribe_registers (args : Args) (ctx : Ctx) (pubsub : PubSub) :
  ∃ iterator pubsub',
    subscribe args ctx pubsub = (Ok iterator, pubsub') ∧
    topic iterator pubsub' = Some (arg_conversation args) ∧
    stream iterator pubsub' = Some [].
Proof.
  eexists _, _. split; [reflexivity |].
  unfold topic, stream. simpl. by rewrite lookup_insert_eq.
Qed.

(** C6.  A subscription opened by [Subscription.message] listens on the
    conversation id it was given and has received nothing yet.  When the
    store accepts the message, [sendMessage] returns the stored message
    with the store [createMessage] produced, and the bus is the one
    obtained by publishing that stored message under the conversation
    id: every subscription that was listening on the conversation has it
    appended to its stream, every subscription listening on another
    topic keeps its stream, and no subscription is added or removed; in
    particular the subscription a listener has just opened holds the
    message if it was opened on this conversation and nothing otherwise.
    When the store refuses, nothing is published. *)
Theorem sendMessage_persists_then_publishes
    {DB : Type} `{PrismaClient DB}
    (args : Args) (user : User) (db : DB) (pubsub : PubSub) :
  (∀ (subscription : Args) (listener : Ctx) (pubsub0 : PubSub),
     ∃ iterator opened,
       subscribe subscription listener pubsub0 = (Ok iterator, opened) ∧
       topic iterator opened = Some (arg_conversation subscription) ∧
       stream iterator opened = Some []) ∧
  (∀ (message : Message) (db' : DB),
     prisma_createMessage db (user_id user) (arg_conversation args) (arg_body args)
       = (Ok message, db') →
     ∃ pubsub',
       sendMessage args (mkCtx (Some user)) (db, pubsub) = (Ok message, (db', pubsub')) ∧
       pubsub' = publish (arg_conversation args) (mkEvent message) pubsub ∧
       (∀ subId, topic subId pubsub = Some (arg_conversation args) →
          stream subId pubsub'
            = (λ events, events ++ [mkEvent message]) <$> stream subId pubsub) ∧
       (∀ subId other, topic subId pubsub = Some other →
          other ≠ arg_conversation args →
          stream subId pubsub' = stream subId pubsub) ∧
       (∀ subId, topic subId pubsub' = topic subId pubsub) ∧
       (∀ (subscription : Args) (listener : Ctx) (pubsub0 : PubSub) (iterator : nat),
          subscribe subscription listener pubsub0 = (Ok iterator, pubsub) →
          stream iterator pubsub'
            = Some (if decide (arg_conversation subscription = arg_conversation args)
                    then [mkEvent message] else []))) ∧
  (∀ (e : error) (db' : DB),
     prisma_createMessage db (user_id user) (arg_conversation args) (arg_body args)
       = (Throw e, db') →
     sendMessage args (mkCtx (Some user)) (db, pubsub) = (Throw e, (db', pubsub))).
Proof.
  split; [| split].
  - intros subscription listener pubsub0.
    destruct (subscribe_registers subscription listener pubsub0)
      as (iterator & opened & Hsubscribe & Htopic & Hstream).
    by exists iterator, opened.
  - intros message db' Hcreate. eexists. split.
    + unfold sendMessage. simpl. rewrite Hcreate. reflexivity.
    + split; [reflexivity |]. split; [| split; [| split]].
      * intros subId Htopic. by apply publish_stream_same_topic.
      * intros subId other Htopic Hne. by eapply publish_stream_other_topic.
      * intros subId. apply publish_topic.
      * intros subscription listener pubsub0 iterator Hsubscribe.
        destruct (subscribe_registers subscription listener pubsub0)
          as (iterator' & opened & Hsubscribe' & Htopic & Hstream).
        rewrite Hsubscribe in Hsubscribe'. injection Hsubscribe' as <- <-.
        case_decide as Hsame.
        -- rewrite publish_stream_same_topic by (by rewrite <- Hsame).
           by rewrite Hstream.
        -- rewrite (publish_stream_other_topic _ _ _ _ _ Htopic Hsame).
           exact Hstream.
  - intros e db' Hcreate. unfold sendMessage. simpl. by rewrite Hcreate.
Qed.

(** [bob], a member of [c2], sends "hi" there after one listener has
    subscribed to [c2] and then another to [c1]. *)
Lemma sendMessage_persists_then_publishes_witness :
  let listening :=
    (subscribe (mkArgs "c1" "") (mkCtx (Some alice))
       (subscribe (mkArgs "c2" "") (mkCtx (Some bob)) (mkPubSub ∅ 0)).2).2 in
  let message := mkMessage "m0" "hi" "c2" "u2" in
  ∃ db' pubsub',
    sendMessage (mkArgs "c2" "hi") (mkCtx (Some bob)) (sample_store, listening)
      = (Ok message, (db', pubsub')) ∧
    messages db' = [message] ∧
    stream 1 pubsub' = Some [mkEvent message] ∧
    stream 2 pubsub' = Some [].
Proof.
  intros listening message.
  set (db' := mkMemStore (users sample_store) (conversations sample_store) [message]).
  assert (prisma_createMessage sample_store (user_id bob)
            (arg_conversation (mkArgs "c2" "hi")) (arg_body (mkArgs "c2" "hi"))
          = (Ok message, db')) as Hcreate by (vm_compute; reflexivity).
  destruct (proj1 (proj2 (sendMessage_persists_then_publishes
                            (mkArgs "c2" "hi") bob sample_store listening))
              message db' Hcreate)
    as (pubsub' & Hsend & _ & Hsame & _ & _ & Hopened).
  exists db', pubsub'.
  split; [exact Hsend |].
  split; [reflexivity |].
  split.
  - rewrite (Hsame 1%nat eq_refl). reflexivity.
  - rewrite (Hopened (mkArgs "c1" "") (mkCtx (Some alice))
               (subscribe (mkArgs "c2" "") (mkCtx (Some bob)) (mkPubSub ∅ 0)).2
               2%nat eq_refl).
    reflexivity.
Defined.

(** ** The Date scalar *)

Lemma TimeClip_time_value (tv : number) : time_value tv → TimeClip tv = tv.
Proof.
  destruct tv as [t|]; simpl; [| done].
  intros Hle. destruct (Z.ltb_spec maxTime (Z.abs t)); [lia | done].
Qed.

(** Every Date the constructor builds holds a well-formed time value. *)
Lemma new_Date_time_value (parse_other : string → number) (v : Value) :
  ∃ tv, new_Date parse_other v = VDate tv ∧ time_value tv.
Proof.
  assert (∀ time, time_value (TimeClip time)) as Hclip.
  { intros [t|]; simpl; [| done].
    destruct (Z.ltb_spec maxTime (Z.abs t)); simpl; [done | lia]. }
  destruct v; unfold new_Date; eexists; (split; [reflexivity | apply Hclip]).
Qed.

(** C8.  [serialize] sends a Date to its time value, an integer count of
    milliseconds when the Date is valid, and [parseValue] sends that
    number back to the same Date; a string given to [serialize] comes
    back as it is. *)
Theorem Date_serialize_parseValue_roundtrip (parse_other : string → number) :
  (∀ tv : number, time_value tv →
     serialize (VDate tv) = Ok (VNumber tv) ∧
     parseValue parse_other (VNumber tv) = VDate tv ∧
     (parseValue parse_other <$> serialize (VDate tv)) = Ok (VDate tv)) ∧
  (∀ t : Z, serialize (VDate (Num t)) = Ok (VNumber (Num t))) ∧
  (∀ s : string, serialize (VString s) = Ok (VString s)).
Proof.
  split; [| split; reflexivity].
  intros tv Htv.
  assert (parseValue parse_other (VNumber tv) = VDate tv) as Hparse.
  { unfold parseValue. simpl. by rewrite TimeClip_time_value. }
  split; [reflexivity |]. split; [exact Hparse |].
  change (serialize (VDate tv)) with (Ok (VNumber tv)).
  change (Ok (parseValue parse_other (VNumber tv)) = Ok (VDate tv)).
  by rewrite Hparse.
Qed.

(** 13 July 2019, 06:40 UTC. *)
Lemma Date_serialize_parseValue_roundtrip_witness :
  serialize (VDate (Num 1563000000000)) = Ok (VNumber (Num 1563000000000)) ∧
  parseValue (λ _, NaN) (VNumber (Num 1563000000000)) = VDate (Num 1563000000000) ∧
  (parseValue (λ _, NaN) <$> serialize (VDate (Num 1563000000000)))
    = Ok (VDate (Num 1563000000000)).
Proof.
  apply (proj1 (Date_serialize_parseValue_roundtrip (λ _, NaN)) (Num 1563000000000)).
  simpl. unfold maxTime. lia.
Defined.

Lemma digit_range (c : ascii) (d : Z) : digit c = Some d → (0 ≤ d ≤ 9)%Z.
Proof.
  unfold digit. intros Hd.
  destruct (_ && _) eqn:Hrange; [| discriminate].
  apply andb_prop in Hrange as [Hlo Hhi].
  apply Z.leb_le in Hlo, Hhi. simplify_eq. lia.
Qed.

Lemma four_digit_year_range (s : string) (y : Z) :
  four_digit_year s = Some y → (0 ≤ y ≤ 9999)%Z.
Proof.
  destruct s as [|a [|b [|c [|d [|]]]]]; simpl; try discriminate.
  destruct (digit a) eqn:Ha, (digit b) eqn:Hb, (digit c) eqn:Hc, (digit d) eqn:Hd;
    try discriminate.
  intros [= <-].
  apply digit_range in Ha, Hb, Hc, Hd. lia.
Qed.

(** A digit is not a minus sign. *)
Lemma int_of_literal_digit (c : ascii) (d : Z) (s : string) :
  digit c = Some d → int_of_literal (String c s) = decimal 0 (String c s).
Proof.
  intros Hd.
  destruct c as [[] [] [] [] [] [] [] []]; try reflexivity; vm_compute in Hd; discriminate.
Qed.

Lemma int_of_literal_four_digits (s : string) (y : Z) :
  four_digit_year s = Some y → int_of_literal s = Some y.
Proof.
  intros Hy.
  destruct s as [|a [|b [|c [|d [|]]]]]; simpl in Hy; try discriminate.
  destruct (digit a) as [da|] eqn:Ha, (digit b) as [db|] eqn:Hb,
    (digit c) as [dc|] eqn:Hc, (digit d) as [dd|] eqn:Hd; try discriminate.
  injection Hy as <-.
  rewrite (int_of_literal_digit _ _ _ Ha). simpl.
  rewrite Ha, Hb, Hc, Hd. simpl. f_equal. lia.
Qed.

(** January 1st of a year up to 9999 is a valid instant, and never the
    instant that many milliseconds after the epoch. *)
Lemma TimeFromYear_facts (y : Z) :
  (0 ≤ y ≤ 9999)%Z →
  (Z.abs (TimeFromYear y) ≤ maxTime)%Z ∧ TimeFromYear y ≠ y.
Proof.
  intros Hy. unfold TimeFromYear, DayFromYear, msPerDay, maxTime.
  Z.div_mod_to_equations. lia.
Qed.

Example TimeFromYear_1970 : TimeFromYear 1970 = 0%Z.
Proof. reflexivity. Qed.

Example TimeFromYear_2000 : TimeFromYear 2000 = 946684800000%Z.
Proof. reflexivity. Qed.

(** C10.  [parseLiteral] answers [null] to every literal that is not an
    integer literal.  For an integer literal it builds the Date from the
    literal's text, which the constructor reads as a date string, where
    [parseValue] builds it from the number, read as milliseconds.  For
    every literal of four digits, denoting [n], the first is January 1st
    of year [n] and the second is [n] milliseconds after the epoch, two
    different instants. *)
Theorem parseLiteral_reads_text_as_date_string (parse_other : string → number) :
  (∀ ast : ValueNode, kind ast ≠ Kind.INT → parseLiteral parse_other ast = VNull) ∧
  (∀ s : string,
     parseLiteral parse_other (IntValue s) = new_Date parse_other (VString s) ∧
     parseLiteral parse_other (IntValue s)
       = VDate (TimeClip (Date_parse parse_other s))) ∧
  (∀ n : Z, parseValue parse_other (VNumber (Num n)) = VDate (TimeClip (Num n))) ∧
  (∀ (s : string) (n : Z),
     four_digit_year s = Some n →
     int_of_literal s = Some n ∧
     parseLiteral parse_other (IntValue s) = VDate (Num (TimeFromYear n)) ∧
     parseValue parse_other (VNumber (Num n)) = VDate (Num n) ∧
     parseLiteral parse_other (IntValue s) ≠ parseValue parse_other (VNumber (Num n))).
Proof.
  split; [| split; [| split]].
  - intros ast Hkind. unfold parseLiteral. by rewrite decide_False.
  - intros s. split; reflexivity.
  - reflexivity.
  - intros s n Hyear.
    pose proof (four_digit_year_range _ _ Hyear) as Hrange.
    destruct (TimeFromYear_facts n Hrange) as [Hvalid Hne].
    assert (parseLiteral parse_other (IntValue s) = VDate (Num (TimeFromYear n)))
      as Hliteral.
    { unfold parseLiteral. simpl. unfold Date_parse. rewrite Hyear.
      by rewrite (TimeClip_time_value (Num (TimeFromYear n))). }
    assert (parseValue parse_other (VNumber (Num n)) = VDate (Num n)) as Hvalue.
    { unfold parseValue, new_Date.
      rewrite (TimeClip_time_value (Num n)); [done |].
      simpl. unfold maxTime. lia. }
    split; [by apply int_of_literal_four_digits |].
    split; [exact Hliteral |]. split; [exact Hvalue |].
    rewrite Hliteral, Hvalue. congruence.
Qed.

(** The literal [2000]: the first day of year 2000 against two seconds
    past the epoch. *)
Lemma parseLiteral_reads_text_as_date_string_witness :
  int_of_literal "2000" = Some 2000%Z ∧
  parseLiteral (λ _, NaN) (IntValue "2000") = VDate (Num (TimeFromYear 2000)) ∧
  parseValue (λ _, NaN) (VNumber (Num 2000)) = VDate (Num 2000) ∧
  parseLiteral (λ _, NaN) (IntValue "2000") ≠ parseValue (λ _, NaN) (VNumber (Num 2000)).
Proof.
  apply (proj2 (proj2 (proj2 (parseLiteral_reads_text_as_date_string (λ _, NaN))))
           "2000" 2000%Z).
  reflexivity.
Defined.

(** ** The earlier revision *)

(** There a missing header, a refused token and a deleted user all make
    [getUser] raise, and the context holds the promise whatever it
    settles to, so [isAuthenticated] accepts every operation. *)
Remark Legacy_getUser_raises_without_authorization
    {DB : Type} `{PrismaClient DB}
    (verify : string → option string → result Payload) (APP_SECRET : option string)
    (db : DB) (req : Request) :
  req_get req "Authorization" = None →
  Legacy.getUser verify APP_SECRET db req = Throw (Error "Not authenticated").
Proof. intros Hget. unfold Legacy.getUser. by rewrite Hget. Qed.

Remark Legacy_isAuthenticated_always_accepts
    {DB : Type} `{PrismaClient DB}
    (verify : string → option string → result Payload) (APP_SECRET : option string)
    (db : DB) (request : Request) (args : Args) :
  Legacy.isAuthenticated_fn args (Legacy.context verify APP_SECRET db request) = Ok true.
Proof. reflexivity. Qed.

(** Its table has no [Subscription] type and gates [sendMessage] by
    [isAuthenticated] alone. *)
Remark Legacy_permissions_rows :
  Legacy.permissions !! "Subscription" = None ∧
  (Legacy.permissions !! "Mutation" ≫= λ fields : gmap string Shield.rule,
     fields !! "sendMessage") = Some Shield.isAuthenticated.
Proof. split; reflexivity. Qed.

(** Its [serialize] has no case for strings. *)
Remark Legacy_serialize_string (s : string) :
  Legacy.serialize (VString s) = Throw (TypeError "value.getTime is not a function").
Proof. reflexivity. Qed.

(** ** The model at work *)

Example replace_strips_prefix : replace "Bearer " "" "Bearer token-u1" = "token-u1".
Proof. reflexivity. Qed.

Example replace_first_occurrence_only :
  replace "Bearer " "" "x Bearer Bearer y" = "x Bearer y".
Proof. reflexivity. Qed.

Example getUser_resolves_alice :
  getUser sample_verify (Some "secret") sample_store
    (request_with {[ "Authorization" := "Bearer token-u1" ]}) = Ok (Some alice).
Proof. vm_compute. reflexivity. Qed.

(** [bob] may send to [c2], [alice] may not, and the resolver runs only
    for [bob]. *)
Example member_passes_the_rule (rule_error : error → result bool) :
  rule_resolve rule_error (Shield.and Shield.isAuthenticated Shield.haveUserAccessToConv)
    sample_store (mkArgs "c2" "hi") (mkCtx (Some bob)) = Ok true.
Proof. vm_compute. reflexivity. Qed.

Example stranger_fails_the_rule (rule_error : error → result bool) (pubsub : PubSub) :
  shield rule_error sample_store "Mutation" "sendMessage" (mkArgs "c2" "hi")
    (mkCtx (Some alice)) (sendMessage (mkArgs "c2" "hi") (mkCtx (Some alice)))
    (sample_store, pubsub)
  = (Throw notAuthorised, (sample_store, pubsub)).
Proof. vm_compute. reflexivity. Qed.

(** Connecting a participant twice is connecting once. *)
Lemma connect_participant_idempotent (u : User) (c : Conversation) :
  connect_participant u (connect_participant u c) = connect_participant u c.
Proof.
  unfold connect_participant.
  destruct (decide (u ∈ conv_participants c)) as [Hin|Hout].
  - by rewrite decide_True.
  - simpl. rewrite decide_True; [done | set_solver].
Qed.

(** * Further properties *)

(** ** Identity resolution *)

Lemma replace_unfold (pat rep s : string) :
  replace pat rep s =
    if String.prefix pat s then rep +:+ drop_chars (String.length pat) s
    else match s with
         | EmptyString => EmptyString
         | String c s' => String c (replace pat rep s')
         end.
Proof. destruct s; reflexivity. Qed.

Lemma prefix_append (pat s : string) : String.prefix pat (pat +:+ s) = true.
Proof.
  induction pat as [|c pat IH]; simpl; [by destruct s |].
  destruct (ascii_dec c c); [exact IH | congruence].
Qed.

Lemma drop_chars_append (pat s : string) :
  drop_chars (String.length pat) (pat +:+ s) = s.
Proof. induction pat as [|c pat IH]; simpl; [by destruct s | exact IH]. Qed.

(** A leading pattern is the occurrence that is replaced. *)
Lemma replace_leading (pat rep s : string) :
  replace pat rep (pat +:+ s) = rep +:+ s.
Proof. by rewrite replace_unfold, prefix_append, drop_chars_append. Qed.

(** X1.  [getUser] answers with an identity only for a request that
    carries a non-empty [Authorization] value whose token the verifier
    accepts, and the identity is the user the store holds under the
    decoded id. *)
Theorem getUser_identity_needs_verified_token
    {DB : Type} `{PrismaClient DB}
    (verify : string → option string → result Payload) (APP_SECRET : option string)
    (db : DB) (req : Request) (user : User) :
  getUser verify APP_SECRET db req = Ok (Some user) →
  ∃ (authorization : string) (payload : Payload),
    req_get req "Authorization" = Some authorization ∧
    authorization ≠ "" ∧
    verify (replace "Bearer " "" authorization) APP_SECRET = Ok payload ∧
    prisma_exists_user db (payload_id payload) = Ok true ∧
    prisma_user db (payload_id payload) = Ok (Some user).
Proof.
  intros Hresolved.
  destruct (req_get req "Authorization") as [authorization|] eqn:Hget;
    [| by rewrite (getUser_without_authorization _ _ _ _ Hget) in Hresolved].
  destruct (decide (authorization = "")) as [->|Hne];
    [by rewrite (getUser_empty_authorization _ _ _ _ Hget) in Hresolved |].
  rewrite (getUser_with_authorization _ _ _ _ _ Hget Hne) in Hresolved.
  destruct (verify _ APP_SECRET) as [payload|] eqn:Hverify; [| discriminate].
  simpl in Hresolved.
  destruct (prisma_exists_user db (payload_id payload)) as [[]|] eqn:Hexists;
    try discriminate.
  simpl in Hresolved. eauto 10.
Qed.

Lemma getUser_identity_needs_verified_token_witness :
  ∃ (authorization : string) (payload : Payload),
    req_get (request_with {[ "Authorization" := "Bearer token-u1" ]}) "Authorization"
      = Some authorization ∧
    authorization ≠ "" ∧
    sample_verify (replace "Bearer " "" authorization) (Some "secret") = Ok payload ∧
    prisma_exists_user sample_store (payload_id payload) = Ok true ∧
    prisma_user sample_store (payload_id payload) = Ok (Some alice).
Proof.
  apply (getUser_identity_needs_verified_token sample_verify (Some "secret")
           sample_store (request_with {[ "Authorization" := "Bearer token-u1" ]}) alice).
  vm_compute. reflexivity.
Defined.

(** X2.  The scheme word is optional: a header made of ["Bearer "] and a
    token resolves like a header made of the token alone, as long as the
    token does not itself contain ["Bearer "]. *)
Theorem getUser_bearer_scheme_is_optional
    {DB : Type} `{PrismaClient DB}
    (verify : string → option string → result Payload) (APP_SECRET : option string)
    (db : DB) (with_scheme bare : Request) (token : string) :
  token ≠ "" →
  replace "Bearer " "" token = token →
  req_get with_scheme "Authorization" = Some ("Bearer " +:+ token) →
  req_get bare "Authorization" = Some token →
  getUser verify APP_SECRET db with_scheme = getUser verify APP_SECRET db bare.
Proof.
  intros Hne Hplain Hscheme Hbare.
  rewrite (getUser_with_authorization _ _ _ _ _ Hscheme); [| discriminate].
  rewrite (getUser_with_authorization _ _ _ _ _ Hbare Hne).
  by rewrite replace_leading, Hplain.
Qed.

Lemma getUser_bearer_scheme_is_optional_witness :
  getUser sample_verify (Some "secret") sample_store
    (request_with {[ "Authorization" := "Bearer token-u1" ]})
  = getUser sample_verify (Some "secret") sample_store
      (request_with {[ "Authorization" := "token-u1" ]}).
Proof.
  apply (getUser_bearer_scheme_is_optional sample_verify (Some "secret") sample_store
           (request_with {[ "Authorization" := "Bearer token-u1" ]})
           (request_with {[ "Authorization" := "token-u1" ]}) "token-u1").
  - discriminate.
  - reflexivity.
  - reflexivity.
  - reflexivity.
Defined.

(** [getUser] reads nothing of the request but [Authorization]. *)
Lemma getUser_reads_authorization_only
    {DB : Type} `{PrismaClient DB}
    (verify : string → option string → result Payload) (APP_SECRET : option string)
    (db : DB) (req1 req2 : Request) :
  req_get req1 "Authorization" = req_get req2 "Authorization" →
  getUser verify APP_SECRET db req1 = getUser verify APP_SECRET db req2.
Proof. intros Hsame. unfold getUser. by rewrite Hsame. Qed.

(** X3.  The identity that [context] places in the execution context,
    or the exception that keeps the context from being built, depends on
    the operation only through the [Authorization] value of its
    credential source: over a connection the HTTP request is not
    consulted for it, and parameters of the connection other than
    [Authorization] play no part. *)
Theorem context_identity_depends_on_authorization_only
    {DB : Type} `{PrismaClient DB}
    (verify : string → option string → result Payload) (APP_SECRET : option string)
    (db : DB) (request1 request2 : Request) (connection1 connection2 : option Connection) :
  req_get (credential_source request1 connection1) "Authorization"
    = req_get (credential_source request2 connection2) "Authorization" →
  ctx_user <$> context verify APP_SECRET db request1 connection1
    = ctx_user <$> context verify APP_SECRET db request2 connection2.
Proof.
  intros Hsame. rewrite !context_getUser.
  by rewrite (getUser_reads_authorization_only _ _ _ _ _ Hsame).
Qed.

(** A connection opened with the token of [alice] and a stray parameter,
    against a plain request with the same token. *)
Lemma context_identity_depends_on_authorization_only_witness :
  ctx_user <$> context sample_verify (Some "secret") sample_store
    (request_with {[ "Authorization" := "Bearer garbage" ]})
    (Some (mkConnection {[ "Authorization" := "Bearer token-u1"; "lang" := "en" ]}))
  = ctx_user <$> context sample_verify (Some "secret") sample_store
      (request_with {[ "Authorization" := "Bearer token-u1" ]}) None.
Proof.
  apply (context_identity_depends_on_authorization_only sample_verify (Some "secret")
           sample_store
           (request_with {[ "Authorization" := "Bearer garbage" ]})
           (request_with {[ "Authorization" := "Bearer token-u1" ]})
           (Some (mkConnection {[ "Authorization" := "Bearer token-u1"; "lang" := "en" ]}))
           None).
  vm_compute. reflexivity.
Defined.

(** On a source whose [Authorization] value is a string or absent,
    [getUser] raises only what the verifier or the store raised. *)
Lemma getUser_raise_inversion
    {DB : Type} `{PrismaClient DB}
    (verify : string → option string → result Payload) (APP_SECRET : option string)
    (db : DB) (req : Request) (e : error) :
  getUser verify APP_SECRET db req = Throw e →
  ∃ authorization : string,
    req_get req "Authorization" = Some authorization ∧
    authorization ≠ "" ∧
    (verify (replace "Bearer " "" authorization) APP_SECRET = Throw e ∨
     ∃ payload : Payload,
       verify (replace "Bearer " "" authorization) APP_SECRET = Ok payload ∧
       (prisma_exists_user db (payload_id payload) = Throw e ∨
        prisma_exists_user db (payload_id payload) = Ok true ∧
        prisma_user db (payload_id payload) = Throw e)).
Proof.
  intros Hraised.
  destruct (req_get req "Authorization") as [authorization|] eqn:Hget;
    [| by rewrite (getUser_without_authorization _ _ _ _ Hget) in Hraised].
  destruct (decide (authorization = "")) as [->|Hne];
    [by rewrite (getUser_empty_authorization _ _ _ _ Hget) in Hraised |].
  rewrite (getUser_with_authorization _ _ _ _ _ Hget Hne) in Hraised.
  exists authorization. split; [done |]. split; [done |].
  destruct (verify _ APP_SECRET) as [payload|e'] eqn:Hverify; simpl in Hraised.
  - right. exists payload. split; [done |].
    destruct (prisma_exists_user db (payload_id payload)) as [[]|e'] eqn:Hexists;
      simpl in Hraised; try discriminate.
    + right. by split.
    + left. congruence.
  - left. congruence.
Qed.

(** On parameters that are all strings, the connection as sent is the
    connection of [context]. *)
Lemma getUser_connection_strings
    {DB : Type} `{PrismaClient DB}
    (verify : string → option string → result Payload) (APP_SECRET : option string)
    (db : DB) (connection : Connection) :
  getUser_connection verify APP_SECRET db
    (mkRawConnection (JString <$> connection_context connection))
  = getUser verify APP_SECRET db (connection_request connection).
Proof.
  unfold getUser_connection. simpl. rewrite lookup_fmap.
  destruct (connection_context connection !! "Authorization") as [authorization|] eqn:Hget.
  - simpl. destruct authorization as [|c rest].
    + symmetry. by apply getUser_empty_authorization.
    + simpl. apply getUser_reads_authorization_only. simpl.
      by rewrite lookup_singleton_eq, Hget.
  - simpl. symmetry. by apply getUser_without_authorization.
Qed.

(** X4.  [getUser] raises only what one of its calls raised.  On an HTTP
    request, whose [Authorization] value is a string or absent, that is
    an exception of the verifier or of the store.  On a connection, whose
    parameters arrive as the client sent them, it can also be the
    [TypeError] of [authorization.replace] on a truthy value that is not
    a string.  A missing or falsy value never makes it raise. *)
Theorem getUser_raises_only_from_its_calls
    {DB : Type} `{PrismaClient DB}
    (verify : string → option string → result Payload) (APP_SECRET : option string)
    (db : DB) (e : error) :
  (∀ req : Request,
     getUser verify APP_SECRET db req = Throw e →
     ∃ authorization : string,
       req_get req "Authorization" = Some authorization ∧
       authorization ≠ "" ∧
       (verify (replace "Bearer " "" authorization) APP_SECRET = Throw e ∨
        ∃ payload : Payload,
          verify (replace "Bearer " "" authorization) APP_SECRET = Ok payload ∧
          (prisma_exists_user db (payload_id payload) = Throw e ∨
           prisma_exists_user db (payload_id payload) = Ok true ∧
           prisma_user db (payload_id payload) = Throw e))) ∧
  (∀ connection : RawConnection,
     getUser_connection verify APP_SECRET db connection = Throw e →
     ∃ sent : Json,
       raw_connection_context connection !! "Authorization" = Some sent ∧
       ToBoolean_json sent = true ∧
       ((∀ s : string, sent ≠ JString s) ∧
        e = TypeError "authorization.replace is not a function" ∨
        ∃ authorization : string,
          sent = JString authorization ∧
          (verify (replace "Bearer " "" authorization) APP_SECRET = Throw e ∨
           ∃ payload : Payload,
             verify (replace "Bearer " "" authorization) APP_SECRET = Ok payload ∧
             (prisma_exists_user db (payload_id payload) = Throw e ∨
              prisma_exists_user db (payload_id payload) = Ok true ∧
              prisma_user db (payload_id payload) = Throw e)))).
Proof.
  split; [intros req; apply getUser_raise_inversion |].
  intros connection. unfold getUser_connection.
  destruct (raw_connection_context connection !! "Authorization") as [sent|];
    simpl; [| discriminate].
  destruct (ToBoolean_json sent) eqn:Htruthy; simpl; [| discriminate].
  intros Hraised. exists sent. split; [done |]. split; [done |].
  destruct sent as [|b|q|authorization|items|members];
    try (left; split; [discriminate | congruence]).
  right. exists authorization. split; [done |].
  apply getUser_raise_inversion in Hraised
    as (authorization' & Hget & _ & Hcalls).
  simpl in Hget. rewrite lookup_singleton_eq in Hget.
  by injection Hget as <-.
Qed.

(** A connection opened with the number 42 for [Authorization]. *)
Lemma getUser_raises_only_from_its_calls_witness :
  ∃ sent : Json,
    raw_connection_context
      (mkRawConnection {[ "Authorization" := JNumber (QArith_base.Qmake 42 1) ]})
      !! "Authorization" = Some sent ∧
    ToBoolean_json sent = true ∧
    ((∀ s : string, sent ≠ JString s) ∧
     TypeError "authorization.replace is not a function"
       = TypeError "authorization.replace is not a function" ∨
     ∃ authorization : string,
       sent = JString authorization ∧
       (sample_verify (replace "Bearer " "" authorization) (Some "secret")
          = Throw (TypeError "authorization.replace is not a function") ∨
        ∃ payload : Payload,
          sample_verify (replace "Bearer " "" authorization) (Some "secret") = Ok payload ∧
          (prisma_exists_user sample_store (payload_id payload)
             = Throw (TypeError "authorization.replace is not a function") ∨
           prisma_exists_user sample_store (payload_id payload) = Ok true ∧
           prisma_user sample_store (payload_id payload)
             = Throw (TypeError "authorization.replace is not a function")))).
Proof.
  apply (proj2 (getUser_raises_only_from_its_calls sample_verify (Some "secret")
                  sample_store (TypeError "authorization.replace is not a function"))
           (mkRawConnection {[ "Authorization" := JNumber (QArith_base.Qmake 42 1) ]})).
  reflexivity.
Defined.

(** ** Rules and membership *)

Lemma existsb_user_id (userId : ID) (participants : list User) :
  existsb (λ p, bool_decide (userId = user_id p)) participants
    = bool_decide (userId ∈ user_id <$> participants).
Proof.
  induction participants as [|p participants IH]; simpl; [done |].
  rewrite IH. destruct (decide (userId = user_id p)) as [Heq|Hne].
  - rewrite (bool_decide_eq_true_2 _ Heq). simpl.
    symmetry. apply bool_decide_eq_true_2. rewrite Heq. by left.
  - rewrite (bool_decide_eq_false_2 _ Hne). simpl.
    apply bool_decide_ext. rewrite elem_of_cons.
    split; [by right | by intros [Heq|Hin]].
Qed.

Lemma existsUserInConv_participants
    {DB : Type} `{PrismaClient DB} (db : DB) (userId conversationId : ID)
    (participants : list User) :
  prisma_conversation_participants db conversationId = Ok (Some participants) →
  existsUserInConv db userId conversationId
    = Ok (bool_decide (userId ∈ user_id <$> participants)).
Proof.
  intros Hparticipants. unfold existsUserInConv. rewrite Hparticipants.
  simpl. by rewrite existsb_user_id.
Qed.

(** X5.  [existsUserInConv] decides membership by id alone: it answers
    whether the user's id is the id of one of the participants the store
    returns.  When the store returns no participant list it raises a
    [TypeError], and an exception of the store is passed on. *)
Theorem existsUserInConv_outcomes
    {DB : Type} `{PrismaClient DB} (db : DB) (userId conversationId : ID) :
  (∀ participants : list User,
     prisma_conversation_participants db conversationId = Ok (Some participants) →
     existsUserInConv db userId conversationId
       = Ok (bool_decide (userId ∈ user_id <$> participants))) ∧
  (prisma_conversation_participants db conversationId = Ok None →
   existsUserInConv db userId conversationId
     = Throw (TypeError "Cannot read property 'some' of null")) ∧
  (∀ e : error,
     prisma_conversation_participants db conversationId = Throw e →
     existsUserInConv db userId conversationId = Throw e).
Proof.
  split; [| split].
  - intros participants. apply existsUserInConv_participants.
  - intros Hnone. unfold existsUserInConv. by rewrite Hnone.
  - intros e Hraised. unfold existsUserInConv. by rewrite Hraised.
Qed.

(** [bob] is in [c2] whatever nickname he goes by; nobody is in a
    conversation that does not exist. *)
Lemma existsUserInConv_outcomes_witness :
  existsUserInConv sample_store "u2" "c2" = Ok true ∧
  existsUserInConv sample_store "u1" "c2" = Ok false ∧
  existsUserInConv sample_store "u2" "c7"
    = Throw (TypeError "Cannot read property 'some' of null").
Proof.
  assert (prisma_conversation_participants sample_store "c2" = Ok (Some [bob]))
    as Hc2 by (vm_compute; reflexivity).
  assert (prisma_conversation_participants sample_store "c7" = Ok None)
    as Hc7 by (vm_compute; reflexivity).
  split; [| split].
  - rewrite (proj1 (existsUserInConv_outcomes sample_store "u2" "c2") [bob] Hc2).
    vm_compute. reflexivity.
  - rewrite (proj1 (existsUserInConv_outcomes sample_store "u1" "c2") [bob] Hc2).
    vm_compute. reflexivity.
  - exact (proj1 (proj2 (existsUserInConv_outcomes sample_store "u2" "c7")) Hc7).
Defined.

Lemma field_rule_membership (typeName fieldName : string) :
  typeName = "Mutation" ∧ fieldName = "sendMessage" ∨
  typeName = "Subscription" ∧ fieldName = "message" →
  field_rule typeName fieldName
    = Some (Shield.and Shield.isAuthenticated Shield.haveUserAccessToConv).
Proof. intros [[-> ->]|[-> ->]]; rewrite field_rule_cases; reflexivity. Qed.

Lemma field_rule_authenticated (typeName fieldName : string) :
  typeName = "Query" ∧ fieldName = "me" ∨
  typeName = "Mutation" ∧ fieldName = "joinToConversation" ∨
  typeName = "User" ∧ fieldName = "conversations" ∨
  typeName = "User" ∧ fieldName = "messages" →
  field_rule typeName fieldName = Some Shield.isAuthenticated.
Proof.
  intros [[-> ->]|[[-> ->]|[[-> ->]|[-> ->]]]]; rewrite field_rule_cases; reflexivity.
Qed.

(** X6.  For an authenticated user, [Mutation.sendMessage] and
    [Subscription.message] run their resolver exactly when the user's id
    is among the participants of the conversation named by the argument;
    otherwise the operation fails with the authorization error and the
    state is untouched: no message is stored, nothing is published, no
    subscription is opened. *)
Theorem membership_gate_admits_exactly_members
    {DB : Type} `{PrismaClient DB}
    (rule_error : error → result bool) (db : DB)
    (typeName fieldName : string) (args : Args) (user : User)
    (participants : list User)
    (S A : Type) (resolver : S → result A * S) (s : S) :
  typeName = "Mutation" ∧ fieldName = "sendMessage" ∨
  typeName = "Subscription" ∧ fieldName = "message" →
  prisma_conversation_participants db (arg_conversation args) = Ok (Some participants) →
  shield rule_error db typeName fieldName args (mkCtx (Some user)) resolver s
    = if bool_decide (user_id user ∈ user_id <$> participants) then resolver s
      else (Throw notAuthorised, s).
Proof.
  intros Hfield Hparticipants.
  unfold shield. rewrite (field_rule_membership _ _ Hfield). simpl.
  unfold haveUserAccessToConv_fn. simpl.
  rewrite (existsUserInConv_participants db (user_id user) (arg_conversation args)
             participants Hparticipants).
  simpl. by destruct (bool_decide _).
Qed.

(** [alice] is kept out of [c2], [bob] gets through. *)
Lemma membership_gate_admits_exactly_members_witness :
  shield (λ _, Ok false) sample_store "Mutation" "sendMessage" (mkArgs "c2" "hi")
    (mkCtx (Some alice)) (sendMessage (mkArgs "c2" "hi") (mkCtx (Some alice)))
    (sample_store, mkPubSub ∅ 0)
  = (Throw notAuthorised, (sample_store, mkPubSub ∅ 0)) ∧
  shield (λ _, Ok false) sample_store "Subscription" "message" (mkArgs "c2" "")
    (mkCtx (Some bob)) (subscribe (mkArgs "c2" "") (mkCtx (Some bob))) (mkPubSub ∅ 0)
  = subscribe (mkArgs "c2" "") (mkCtx (Some bob)) (mkPubSub ∅ 0).
Proof.
  assert (prisma_conversation_participants sample_store "c2" = Ok (Some [bob]))
    as Hc2 by (vm_compute; reflexivity).
  split.
  - rewrite (membership_gate_admits_exactly_members (λ _, Ok false) sample_store
               "Mutation" "sendMessage" (mkArgs "c2" "hi") alice [bob] _ _ _ _
               (or_introl (conj eq_refl eq_refl)) Hc2).
    reflexivity.
  - rewrite (membership_gate_admits_exactly_members (λ _, Ok false) sample_store
               "Subscription" "message" (mkArgs "c2" "") bob [bob] _ _ _ _
               (or_intror (conj eq_refl eq_refl)) Hc2).
    reflexivity.
Defined.

(** X7.  The fields gated by [isAuthenticated] alone ([Query.me],
    [Mutation.joinToConversation], [User.conversations],
    [User.messages]) run their resolver for every authenticated user,
    member of anything or not, without a store call. *)
Theorem authenticated_fields_admit_every_identity
    {DB : Type} `{PrismaClient DB}
    (rule_error : error → result bool) (db : DB)
    (typeName fieldName : string) (args : Args) (user : User)
    (S A : Type) (resolver : S → result A * S) (s : S) :
  typeName = "Query" ∧ fieldName = "me" ∨
  typeName = "Mutation" ∧ fieldName = "joinToConversation" ∨
  typeName = "User" ∧ fieldName = "conversations" ∨
  typeName = "User" ∧ fieldName = "messages" →
  shield rule_error db typeName fieldName args (mkCtx (Some user)) resolver s
    = resolver s.
Proof.
  intros Hfield. unfold shield.
  by rewrite (field_rule_authenticated _ _ Hfield).
Qed.

(** [alice], who is in no conversation, may join [c1]. *)
Lemma authenticated_fields_admit_every_identity_witness :
  shield (λ _, Ok false) sample_store "Mutation" "joinToConversation" (mkArgs "c1" "")
    (mkCtx (Some alice)) (joinToConversation (mkArgs "c1" "") (mkCtx (Some alice)))
    sample_store
  = joinToConversation (mkArgs "c1" "") (mkCtx (Some alice)) sample_store.
Proof.
  apply (authenticated_fields_admit_every_identity (λ _, Ok false) sample_store
           "Mutation" "joinToConversation").
  right. left. split; reflexivity.
Defined.

(** X8.  Behind its rule, [Query.me] never answers [null]: when the gated
    field returns, it returns the identity of the context. *)
Theorem gated_me_returns_the_identity
    {DB : Type} `{PrismaClient DB}
    (rule_error : error → result bool) (db : DB) (args : Args) (ctx : Ctx)
    (S : Type) (s s' : S) (returned : option User) :
  shield rule_error db "Query" "me" args ctx (λ s, (me args ctx, s)) s
    = (Ok returned, s') →
  ∃ user : User, returned = Some user ∧ ctx_user ctx = Some user ∧ s' = s.
Proof.
  unfold shield.
  rewrite (field_rule_authenticated "Query" "me") by (left; done).
  simpl. unfold me.
  destruct (ctx_user ctx) as [user|]; simpl.
  - intros [= <- <-]. by exists user.
  - discriminate.
Qed.

Lemma gated_me_returns_the_identity_witness :
  ∃ user : User, Some alice = Some user ∧ ctx_user (mkCtx (Some alice)) = Some user ∧ tt = tt.
Proof.
  apply (gated_me_returns_the_identity (λ _, Ok false) sample_store (mkArgs "" "")
           (mkCtx (Some alice)) unit tt tt (Some alice)).
  vm_compute. reflexivity.
Defined.

(** ** Signing in *)

Section SigninFacts.
Context {DB : Type} `{PrismaAccounts DB}.
Variable sign : Z → Payload → option string → result string.
Variable APP_SECRET : option string.

(** After the existence check, [signin] is the fetch or the creation,
    followed by the signature. *)
Lemma signin_existing (now : Z) (nickname : string) (db : DB) :
  prisma_exists_user_nickname db nickname = Ok true →
  signin sign APP_SECRET now nickname db =
    (prisma_user_nickname db nickname ≫= λ user : option User,
     property_id user ≫= λ id,
     sign now (mkPayload id nickname) APP_SECRET ≫= λ token,
     Ok (mkSignInResponse user token),
     db).
Proof.
  intros Hexists. unfold signin. rewrite Hexists.
  destruct (prisma_user_nickname db nickname) as [[user|]|]; simpl; try done.
  by destruct (sign now _ APP_SECRET).
Qed.

Lemma signin_new (now : Z) (nickname : string) (db db' : DB) (created : result User) :
  prisma_exists_user_nickname db nickname = Ok false →
  prisma_createUser db nickname = (created, db') →
  signin sign APP_SECRET now nickname db =
    (created ≫= λ user : User,
     sign now (mkPayload (user_id user) nickname) APP_SECRET ≫= λ token,
     Ok (mkSignInResponse (Some user) token),
     db').
Proof.
  intros Hexists Hcreate. unfold signin. rewrite Hexists, Hcreate.
  destruct created as [user|]; simpl; try done.
  by destruct (sign now _ APP_SECRET).
Qed.
End SigninFacts.

(** X9.  Signing in with a nickname that exists writes nothing, whatever
    else happens: the store comes back as it was.  The answer is the
    stored user with a token for that user's id; should the fetch find
    nobody after all, the resolver raises a [TypeError]. *)
Theorem signin_existing_nickname_writes_nothing
    {DB : Type} `{PrismaAccounts DB}
    (sign : Z → Payload → option string → result string) (APP_SECRET : option string)
    (now : Z) (nickname : string) (db : DB) :
  prisma_exists_user_nickname db nickname = Ok true →
  (signin sign APP_SECRET now nickname db).2 = db ∧
  (∀ (user : User) (token : string),
     prisma_user_nickname db nickname = Ok (Some user) →
     sign now (mkPayload (user_id user) nickname) APP_SECRET = Ok token →
     (signin sign APP_SECRET now nickname db).1
       = Ok (mkSignInResponse (Some user) token)) ∧
  (prisma_user_nickname db nickname = Ok None →
   (signin sign APP_SECRET now nickname db).1
     = Throw (TypeError "Cannot read property 'id' of null")).
Proof.
  intros Hexists. rewrite (signin_existing _ _ _ _ _ Hexists). simpl.
  split; [done |]. split.
  - intros user token -> Hsign. simpl. by rewrite Hsign.
  - by intros ->.
Qed.

Lemma signin_existing_nickname_writes_nothing_witness :
  (signin sample_sign (Some "secret") 0 "alice" sample_store).2 = sample_store ∧
  (signin sample_sign (Some "secret") 0 "alice" sample_store).1
    = Ok (mkSignInResponse (Some alice) "token-u1").
Proof.
  assert (prisma_exists_user_nickname sample_store "alice" = Ok true)
    as Hexists by (vm_compute; reflexivity).
  destruct (signin_existing_nickname_writes_nothing sample_sign (Some "secret") 0
              "alice" sample_store Hexists) as (Hstore & Hanswer & _).
  split; [exact Hstore |].
  apply Hanswer; vm_compute; reflexivity.
Defined.

(** X10.  Signing in with a new nickname creates the user before the
    token is signed: the store returned is the one [createUser] produced
    also when the signature fails, so a failed sign-in (no secret, say)
    still leaves the new user behind. *)
Theorem signin_new_nickname_creates_before_signing
    {DB : Type} `{PrismaAccounts DB}
    (sign : Z → Payload → option string → result string) (APP_SECRET : option string)
    (now : Z) (nickname : string) (db db' : DB) (user : User) :
  prisma_exists_user_nickname db nickname = Ok false →
  prisma_createUser db nickname = (Ok user, db') →
  (signin sign APP_SECRET now nickname db).2 = db' ∧
  (∀ token : string,
     sign now (mkPayload (user_id user) nickname) APP_SECRET = Ok token →
     (signin sign APP_SECRET now nickname db).1
       = Ok (mkSignInResponse (Some user) token)) ∧
  (∀ e : error,
     sign now (mkPayload (user_id user) nickname) APP_SECRET = Throw e →
     signin sign APP_SECRET now nickname db = (Throw e, db')).
Proof.
  intros Hexists Hcreate. rewrite (signin_new _ _ _ _ _ _ _ Hexists Hcreate). simpl.
  split; [done |]. split.
  - by intros token ->.
  - by intros e ->.
Qed.

(** "carol" signs in while the server has no secret: the sign-in fails
    and "carol" is in the store. *)
Lemma signin_new_nickname_creates_before_signing_witness :
  ∃ (carol : User) (db' : MemStore),
    signin sample_sign None 0 "carol" sample_store
      = (Throw (Error "secretOrPrivateKey must have a value"), db') ∧
    users db' !! user_id carol = Some carol ∧
    user_nickname carol = "carol" ∧
    users sample_store !! user_id carol = None.
Proof.
  set (carol := mkUser (fresh_string "u" (users sample_store)) "carol").
  set (db' := mkMemStore (<[user_id carol := carol]> (users sample_store))
                (conversations sample_store) (messages sample_store)).
  assert (prisma_exists_user_nickname sample_store "carol" = Ok false)
    as Hexists by (vm_compute; reflexivity).
  assert (prisma_createUser sample_store "carol" = (Ok carol, db'))
    as Hcreate by (vm_compute; reflexivity).
  exists carol, db'.
  split.
  - apply (proj2 (proj2 (signin_new_nickname_creates_before_signing sample_sign None 0
                           "carol" sample_store db' carol Hexists Hcreate))).
    reflexivity.
  - split; [apply lookup_insert_eq |]. split; [reflexivity |].
    apply fresh_string_fresh.
Defined.

(** X11.  Whenever [signin] succeeds, its answer holds a user, and the
    token is the signature of that user's id together with the nickname
    that was asked for. *)
Theorem signin_token_signs_the_returned_user
    {DB : Type} `{PrismaAccounts DB}
    (sign : Z → Payload → option string → result string) (APP_SECRET : option string)
    (now : Z) (nickname : string) (db db' : DB) (response : SignInResponse) :
  signin sign APP_SECRET now nickname db = (Ok response, db') →
  ∃ user : User,
    response_user response = Some user ∧
    sign now (mkPayload (user_id user) nickname) APP_SECRET = Ok (response_token response).
Proof.
  unfold signin.
  destruct (prisma_exists_user_nickname db nickname) as [[]|]; [| | discriminate].
  - destruct (prisma_user_nickname db nickname) as [[user|]|]; simpl; try discriminate.
    destruct (sign now _ APP_SECRET) as [token|] eqn:Hsign; [| discriminate].
    intros [= <- <-]. by exists user.
  - destruct (prisma_createUser db nickname) as [[user|] db''];
      simpl; [| discriminate].
    destruct (sign now _ APP_SECRET) as [token|] eqn:Hsign; [| discriminate].
    intros [= <- <-]. by exists user.
Qed.

Lemma signin_token_signs_the_returned_user_witness :
  ∃ user : User,
    response_user (mkSignInResponse (Some alice) "token-u1") = Some user ∧
    sample_sign 0 (mkPayload (user_id user) "alice") (Some "secret")
      = Ok (response_token (mkSignInResponse (Some alice) "token-u1")).
Proof.
  apply (signin_token_signs_the_returned_user sample_sign (Some "secret") 0 "alice"
           sample_store sample_store).
  vm_compute. reflexivity.
Defined.

(** X12.  The token handed out by [signin] signs the user in: sent back
    as ["Bearer "] followed by the token, it makes [getUser] resolve the
    very user [signin] answered with, provided the verifier accepts the
    token with the id that was signed and the store still holds the
    user. *)
Theorem signin_token_resolves_to_the_user
    {DB : Type} `{PrismaClient DB} `{PrismaAccounts DB}
    (sign : Z → Payload → option string → result string)
    (verify : string → option string → result Payload) (APP_SECRET : option string)
    (now : Z) (nickname : string) (db db' : DB) (response : SignInResponse)
    (req : Request) :
  signin sign APP_SECRET now nickname db = (Ok response, db') →
  (∀ (payload : Payload) (token : string),
     sign now payload APP_SECRET = Ok token → verify token APP_SECRET = Ok payload) →
  (∀ user : User,
     response_user response = Some user →
     prisma_exists_user db' (user_id user) = Ok true ∧
     prisma_user db' (user_id user) = Ok (Some user)) →
  req_get req "Authorization" = Some ("Bearer " +:+ response_token response) →
  getUser verify APP_SECRET db' req = Ok (response_user response) ∧
  response_user response ≠ None.
Proof.
  intros Hsignin Hjwt Hstore Hget.
  unfold signin in Hsignin.
  assert (∃ user : User,
            response_user response = Some user ∧
            sign now (mkPayload (user_id user) nickname) APP_SECRET
              = Ok (response_token response)) as (user & Huser & Hsign).
  { destruct (prisma_exists_user_nickname db nickname) as [[]|]; [| | discriminate].
    - destruct (prisma_user_nickname db nickname) as [[user|]|];
        simpl in Hsignin; try discriminate.
      destruct (sign now _ APP_SECRET) as [token|] eqn:Hsign; [| discriminate].
      injection Hsignin as <- <-. by exists user.
    - destruct (prisma_createUser db nickname) as [[user|] db''];
        simpl in Hsignin; [| discriminate].
      destruct (sign now _ APP_SECRET) as [token|] eqn:Hsign; [| discriminate].
      injection Hsignin as <- <-. by exists user. }
  destruct (Hstore user Huser) as [Hexists Hfetch].
  rewrite (getUser_with_authorization _ _ _ _ _ Hget); [| discriminate].
  rewrite replace_leading.
  change ("" +:+ response_token response) with (response_token response).
  rewrite (Hjwt _ _ Hsign). simpl. rewrite Hexists. simpl.
  rewrite Hfetch, Huser. done.
Qed.

(** [alice] signs in and comes back with her token. *)
Lemma signin_token_resolves_to_the_user_witness :
  getUser sample_verify (Some "secret") sample_store
    (request_with {[ "Authorization" := "Bearer token-u1" ]}) = Ok (Some alice) ∧
  Some alice ≠ None.
Proof.
  assert (signin alice_sign (Some "secret") 0 "alice" sample_store
          = (Ok (mkSignInResponse (Some alice) "token-u1"), sample_store))
    as Hsignin by (vm_compute; reflexivity).
  apply (signin_token_resolves_to_the_user alice_sign sample_verify (Some "secret") 0
           "alice" sample_store sample_store (mkSignInResponse (Some alice) "token-u1")
           (request_with {[ "Authorization" := "Bearer token-u1" ]}) Hsignin).
  - intros payload token. unfold alice_sign.
    destruct (decide (payload = mkPayload "u1" "alice")) as [->|]; [| discriminate].
    intros [= <-]. reflexivity.
  - intros user [= <-]. split; vm_compute; reflexivity.
  - reflexivity.
Defined.

(** *** Signing in on the in-memory store *)

(** The entries of the store's users that go by a nickname. *)
Lemma mem_exists_nickname_false (db : MemStore) (nickname : string) (id : ID) (user : User) :
  prisma_exists_user_nickname db nickname = Ok false →
  users db !! id = Some user →
  user_nickname user ≠ nickname.
Proof.
  simpl. intros [= Hnone] Hlookup Hnick.
  apply not_true_iff_false in Hnone. apply Hnone.
  apply existsb_exists. exists (id, user). split.
  - apply list_elem_of_In, elem_of_map_to_list. exact Hlookup.
  - simpl. by apply bool_decide_eq_true_2.
Qed.

Lemma head_filter_only {A} (P : A → Prop) `{∀ x, Decision (P x)} (l : list A) (a : A) :
  a ∈ l → P a → (∀ x, x ∈ l → P x → x = a) →
  head (filter P l) = Some a.
Proof.
  intros Hin Ha Honly.
  assert (a ∈ filter P l) as Hfiltered by (by apply list_elem_of_filter).
  destruct (filter P l) as [|x rest] eqn:Hfilter; [by apply elem_of_nil in Hfiltered |].
  simpl. f_equal.
  assert (x ∈ filter P l) as Hx by (rewrite Hfilter; by left).
  apply list_elem_of_filter in Hx as [HPx Hxl]. by apply Honly.
Qed.

(** After a user was created under a nickname nobody had, the store
    finds that user, and only that user, under the nickname. *)
Lemma mem_createUser_then_found (db db' : MemStore) (nickname : string) (user : User) :
  prisma_exists_user_nickname db nickname = Ok false →
  prisma_createUser db nickname = (Ok user, db') →
  prisma_exists_user_nickname db' nickname = Ok true ∧
  prisma_user_nickname db' nickname = Ok (Some user).
Proof.
  intros Hfree Hcreate.
  assert (∀ id u, users db !! id = Some u → user_nickname u ≠ nickname) as Hnobody.
  { intros id u. by apply mem_exists_nickname_false. }
  simpl in Hcreate, Hfree. unfold mem_createUser in Hcreate.
  injection Hfree as Hfree. rewrite Hfree in Hcreate.
  injection Hcreate as <- <-. simpl.
  set (id := fresh_string "u" (users db)).
  set (created := mkUser id nickname).
  assert ((id, created) ∈ map_to_list (<[id := created]> (users db))) as Hin.
  { apply elem_of_map_to_list, lookup_insert_eq. }
  split; f_equal.
  - apply existsb_exists. exists (id, created). split.
    + by apply list_elem_of_In.
    + simpl. by apply bool_decide_eq_true_2.
  - rewrite (head_filter_only _ _ (id, created)); [done | exact Hin | done |].
    intros [k u] Hk Hnick. simpl in Hnick.
    apply elem_of_map_to_list in Hk.
    rewrite lookup_insert in Hk. case_decide as Hid.
    + congruence.
    + by destruct (Hnobody k u Hk).
Qed.

(** X13.  On the in-memory store, signing in is find-or-create: a first
    sign-in under a free nickname creates one user, and a later sign-in
    under the same nickname answers with that same user and leaves the
    store as the first left it. *)
Theorem signin_twice_creates_one_user
    (sign : Z → Payload → option string → result string) (APP_SECRET : option string)
    (now later : Z) (nickname : string) (db db' : MemStore)
    (first : SignInResponse) (user : User) (token : string) :
  prisma_exists_user_nickname db nickname = Ok false →
  signin sign APP_SECRET now nickname db = (Ok first, db') →
  response_user first = Some user →
  sign later (mkPayload (user_id user) nickname) APP_SECRET = Ok token →
  users db !! user_id user = None ∧
  users db' = <[user_id user := user]> (users db) ∧
  signin sign APP_SECRET later nickname db'
    = (Ok (mkSignInResponse (Some user) token), db').
Proof.
  intros Hfree Hfirst Huser Hsign.
  destruct (prisma_createUser db nickname) as [created db''] eqn:Hcreate.
  rewrite (signin_new sign APP_SECRET now nickname db db'' created Hfree Hcreate)
    in Hfirst.
  destruct created as [user'|]; simpl in Hfirst; [| discriminate].
  destruct (sign now _ APP_SECRET) as [token0|]; simpl in Hfirst; [| discriminate].
  injection Hfirst as Hresponse Hstore. subst first db''.
  simpl in Huser. injection Huser as ->.
  destruct (mem_createUser_then_found db db' nickname user Hfree Hcreate)
    as [Hexists Hfound].
  assert (user_id user = fresh_string "u" (users db) ∧
          users db' = <[user_id user := user]> (users db)) as [Hid Husers].
  { simpl in Hcreate, Hfree. unfold mem_createUser in Hcreate.
    injection Hfree as Hfree. rewrite Hfree in Hcreate.
    by injection Hcreate as <- <-. }
  split; [rewrite Hid; apply fresh_string_fresh |].
  split; [exact Husers |].
  rewrite (signin_existing sign APP_SECRET later nickname db' Hexists).
  rewrite Hfound. simpl. by rewrite Hsign.
Qed.

Lemma signin_twice_creates_one_user_witness :
  ∃ (carol : User) (db' : MemStore),
    signin sample_sign (Some "secret") 0 "carol" sample_store
      = (Ok (mkSignInResponse (Some carol) ("token-" +:+ user_id carol)), db') ∧
    signin sample_sign (Some "secret") 60 "carol" db'
      = (Ok (mkSignInResponse (Some carol) ("token-" +:+ user_id carol)), db').
Proof.
  set (carol := mkUser (fresh_string "u" (users sample_store)) "carol").
  set (db' := mkMemStore (<[user_id carol := carol]> (users sample_store))
                (conversations sample_store) (messages sample_store)).
  assert (prisma_exists_user_nickname sample_store "carol" = Ok false)
    as Hfree by (vm_compute; reflexivity).
  assert (signin sample_sign (Some "secret") 0 "carol" sample_store
          = (Ok (mkSignInResponse (Some carol) ("token-" +:+ user_id carol)), db'))
    as Hfirst by (vm_compute; reflexivity).
  exists carol, db'. split; [exact Hfirst |].
  apply (signin_twice_creates_one_user sample_sign (Some "secret") 0 60 "carol"
           sample_store db' _ carol _ Hfree Hfirst); reflexivity.
Defined.

(** ** The Date scalar, further *)

(** X14.  [serialize] succeeds on strings and on Dates only: a number
    (a timestamp already in milliseconds), a boolean, [null] or
    [undefined] makes it raise a [TypeError]. *)
Theorem serialize_accepts_strings_and_dates_only (value : Value) :
  ((∃ s : string, value = VString s) ∨ (∃ tv : number, value = VDate tv) ↔
   ∃ sent : Value, serialize value = Ok sent) ∧
  (∀ n : number,
     serialize (VNumber n) = Throw (TypeError "value.getTime is not a function")) ∧
  (∀ e : error, serialize value = Throw e → ∃ msg : string, e = TypeError msg).
Proof.
  split; [split |split].
  - intros [[s ->]|[tv ->]]; eexists; reflexivity.
  - intros [sent Hsent]. destruct value; try discriminate; eauto.
  - reflexivity.
  - intros e. destruct value; intros [= <-]; eauto.
Qed.

Lemma TimeClip_cases (t : Z) :
  TimeClip (Num t) = if bool_decide (Z.abs t ≤ maxTime)%Z then Num t else NaN.
Proof.
  simpl. destruct (Z.ltb_spec maxTime (Z.abs t)).
  - by rewrite bool_decide_eq_false_2 by lia.
  - by rewrite bool_decide_eq_true_2 by lia.
Qed.

(** X15.  A number parsed and serialized again comes back unchanged when
    it lies within 8.64e15 milliseconds of the epoch, bounds included;
    beyond, [parseValue] builds an invalid Date and [serialize] sends
    [NaN]. *)
Theorem parseValue_serialize_number (parse_other : string → number) (t : Z) :
  serialize (parseValue parse_other (VNumber (Num t)))
    = Ok (VNumber (if bool_decide (-8640000000000000 ≤ t ≤ 8640000000000000)%Z
                   then Num t else NaN)).
Proof.
  unfold parseValue, new_Date. rewrite TimeClip_cases. unfold maxTime.
  destruct (decide (-8640000000000000 ≤ t ≤ 8640000000000000)%Z) as [Hin|Hout].
  - rewrite (bool_decide_eq_true_2 _ Hin).
    by rewrite bool_decide_eq_true_2 by lia.
  - rewrite (bool_decide_eq_false_2 _ Hout).
    by rewrite bool_decide_eq_false_2 by lia.
Qed.

(** X16.  Whatever the client sends, [parseValue] answers with a Date
    whose time value is well formed; serializing it never fails, and
    parsing the parsed Date again changes nothing. *)
Theorem parseValue_always_builds_a_date (parse_other : string → number) (value : Value) :
  ∃ tv : number,
    parseValue parse_other value = VDate tv ∧
    time_value tv ∧
    serialize (parseValue parse_other value) = Ok (VNumber tv) ∧
    parseValue parse_other (parseValue parse_other value)
      = parseValue parse_other value.
Proof.
  destruct (new_Date_time_value parse_other value) as (tv & Hdate & Htv).
  exists tv. unfold parseValue. rewrite Hdate.
  split; [done |]. split; [done |]. split; [done |].
  simpl. by rewrite TimeClip_time_value.
Qed.

(** X17.  [parseLiteral] answers with a well-formed Date for an integer
    literal and with [null] for every other literal: a date written as a
    string literal is not parsed. *)
Theorem parseLiteral_dates_from_integer_literals_only
    (parse_other : string → number) (ast : ValueNode) :
  (∃ (s : string) (tv : number),
     ast = IntValue s ∧ parseLiteral parse_other ast = VDate tv ∧ time_value tv) ∨
  ((∀ s : string, ast ≠ IntValue s) ∧ parseLiteral parse_other ast = VNull).
Proof.
  destruct ast as [name|s|s|s|b| |s|values|fields];
    try (right; split; [discriminate | reflexivity]).
  left.
  destruct (new_Date_time_value parse_other (VString s)) as (tv & Hdate & Htv).
  exists s, tv. by repeat split.
Qed.

(** ** The earlier revision, further *)

(** X18.  The two revisions of [getUser] resolve the same identities and
    raise the same exceptions of the verifier and the store; they differ
    only where the later one answers [null], which the earlier one
    answers by raising "Not authenticated" or "User not exists" (or by
    [null] too, when the store loses the user between its two calls). *)
Theorem Legacy_getUser_differs_on_null_only
    {DB : Type} `{PrismaClient DB}
    (verify : string → option string → result Payload) (APP_SECRET : option string)
    (db : DB) (req : Request) :
  (∀ user : User,
     getUser verify APP_SECRET db req = Ok (Some user) ↔
     Legacy.getUser verify APP_SECRET db req = Ok (Some user)) ∧
  (∀ e : error,
     getUser verify APP_SECRET db req = Throw e →
     Legacy.getUser verify APP_SECRET db req = Throw e) ∧
  (getUser verify APP_SECRET db req = Ok None →
   Legacy.getUser verify APP_SECRET db req = Throw (Error "Not authenticated") ∨
   Legacy.getUser verify APP_SECRET db req = Throw (Error "User not exists") ∨
   Legacy.getUser verify APP_SECRET db req = Ok None).
Proof.
  unfold getUser, Legacy.getUser.
  destruct (ToBoolean_nullable ToBoolean_string (req_get req "Authorization")); simpl.
  - destruct (verify _ APP_SECRET) as [payload|]; simpl.
    + destruct (prisma_exists_user db (payload_id payload)) as [[]|]; simpl.
      * destruct (prisma_user db (payload_id payload)) as [[user|]|];
          repeat split; try done; auto.
      * repeat split; try done; auto.
      * repeat split; try done.
    + repeat split; try done.
  - repeat split; try done; auto.
Qed.

(** X19.  In the earlier revision the check of [isAuthenticated] is
    empty: for a request without [Authorization], [getUser] raises, yet
    the context holds the promise and the rule accepts. *)
Theorem Legacy_isAuthenticated_accepts_anonymous
    {DB : Type} `{PrismaClient DB}
    (verify : string → option string → result Payload) (APP_SECRET : option string)
    (db : DB) (request : Request) (args : Args) :
  req_get request "Authorization" = None →
  Legacy.ctx_user (Legacy.context verify APP_SECRET db request)
    = Promise (Throw (Error "Not authenticated")) ∧
  Legacy.isAuthenticated_fn args (Legacy.context verify APP_SECRET db request)
    = Ok true.
Proof.
  intros Hget. split; [| reflexivity].
  unfold Legacy.context. simpl.
  by rewrite (Legacy_getUser_raises_without_authorization _ _ _ _ Hget).
Qed.

Lemma Legacy_isAuthenticated_accepts_anonymous_witness :
  Legacy.ctx_user (Legacy.context sample_verify (Some "secret") sample_store
                     (request_with ∅))
    = Promise (Throw (Error "Not authenticated")) ∧
  Legacy.isAuthenticated_fn (mkArgs "c2" "hi")
    (Legacy.context sample_verify (Some "secret") sample_store (request_with ∅))
    = Ok true.
Proof.
  apply (Legacy_isAuthenticated_accepts_anonymous sample_verify (Some "secret")
           sample_store (request_with ∅) (mkArgs "c2" "hi")).
  reflexivity.
Defined.

Lemma serialize_accepts_strings_and_dates_only_witness :
  ∃ msg : string, TypeError "Cannot read property 'getTime' of null" = TypeError msg.
Proof.
  apply (proj2 (proj2 (serialize_accepts_strings_and_dates_only VNull))).
  reflexivity.
Defined.

(** The token of a deleted user: [null] now, "User not exists" before. *)
Lemma Legacy_getUser_differs_on_null_only_witness :
  Legacy.getUser sample_verify (Some "secret") sample_store
    (request_with {[ "Authorization" := "Bearer token-u9" ]})
    = Throw (Error "Not authenticated") ∨
  Legacy.getUser sample_verify (Some "secret") sample_store
    (request_with {[ "Authorization" := "Bearer token-u9" ]})
    = Throw (Error "User not exists") ∨
  Legacy.getUser sample_verify (Some "secret") sample_store
    (request_with {[ "Authorization" := "Bearer token-u9" ]}) = Ok None.
Proof.
  apply (proj2 (proj2 (Legacy_getUser_differs_on_null_only sample_verify (Some "secret")
                         sample_store
                         (request_with {[ "Authorization" := "Bearer token-u9" ]})))).
  vm_compute. reflexivity.
Defined.

(** ** Subscriptions *)

(** X20.  A subscription opened through [Subscription.message] before a
    message is sent to its conversation receives exactly that message;
    one opened after the message was sent receives nothing of it. *)
Theorem subscription_receives_from_its_opening_on
    {DB : Type} `{PrismaClient DB}
    (args : Args) (sender listener : User) (db db' : DB) (pubsub : PubSub)
    (message : Message) :
  prisma_createMessage db (user_id sender) (arg_conversation args) (arg_body args)
    = (Ok message, db') →
  (let '(opened, before) := subscribe args (mkCtx (Some listener)) pubsub in
   ∃ iterator after,
     opened = Ok iterator ∧
     sendMessage args (mkCtx (Some sender)) (db, before) = (Ok message, (db', after)) ∧
     stream iterator after = Some [mkEvent message]) ∧
  (∃ sent,
     sendMessage args (mkCtx (Some sender)) (db, pubsub) = (Ok message, (db', sent)) ∧
     let '(opened, after) := subscribe args (mkCtx (Some listener)) sent in
     ∃ iterator, opened = Ok iterator ∧ stream iterator after = Some []).
Proof.
  intros Hcreate. split.
  - simpl. eexists _, _. split; [reflexivity |]. split.
    + unfold sendMessage. simpl. rewrite Hcreate. reflexivity.
    + rewrite publish_stream_same_topic.
      * unfold stream. simpl. by rewrite lookup_insert_eq.
      * unfold topic. simpl. by rewrite lookup_insert_eq.
  - eexists. split.
    + unfold sendMessage. simpl. rewrite Hcreate. reflexivity.
    + simpl. eexists. split; [reflexivity |].
      unfold stream. simpl. by rewrite lookup_insert_eq.
Qed.

(** [alice] listens on [c2]; [bob] says "hi" there. *)
Lemma subscription_receives_from_its_opening_on_witness :
  let message := mkMessage "m0" "hi" "c2" "u2" in
  let '(opened, before) :=
    subscribe (mkArgs "c2" "hi") (mkCtx (Some alice)) (mkPubSub ∅ 0) in
  ∃ iterator after,
    opened = Ok iterator ∧
    sendMessage (mkArgs "c2" "hi") (mkCtx (Some bob)) (sample_store, before)
      = (Ok message,
         (mkMemStore (users sample_store) (conversations sample_store) [message], after)) ∧
    stream iterator after = Some [mkEvent message].
Proof.
  intros message.
  set (db' := mkMemStore (users sample_store) (conversations sample_store) [message]).
  assert (prisma_createMessage sample_store (user_id bob)
            (arg_conversation (mkArgs "c2" "hi")) (arg_body (mkArgs "c2" "hi"))
          = (Ok message, db')) as Hcreate by (vm_compute; reflexivity).
  exact (proj1 (subscription_receives_from_its_opening_on (mkArgs "c2" "hi") bob alice
                  sample_store db' (mkPubSub ∅ 0) message Hcreate)).
Defined.
